(** * scrapyd_api.wrapper: the ScrapydAPI facade

    A shallow embedding of [src/scrapyd_api/wrapper.py].  Python values
    are an inductive type, dictionaries that travel in requests and
    responses are insertion-ordered association lists, the endpoint
    dictionaries are objects in a heap (so that [deepcopy] and aliasing
    are visible), and every method is a computation in a state-and-error
    monad whose state also records the calls made to the HTTP delegate. *)

From Stdlib Require Import ZArith Ascii String.
From Stdlib Require PrimFloat.
From stdpp Require Import base option list strings pretty gmap fin_maps.

Local Open Scope string_scope.

(** ** Python values *)

#[local] Unset Elimination Schemes.
Inductive pyval : Type :=
| VNone
| VBool (b : bool)
| VInt (z : Z)
| VFloat (x : PrimFloat.float)
| VStr (s : string)
| VList (l : list pyval)
| VDict (d : list (string * pyval)).
#[local] Set Elimination Schemes.

(** A [dict] with string keys, in insertion order. *)
Abbreviation pydict := (list (string * pyval)).

Inductive exn : Type :=
| ValueError (msg : string)
| KeyError (key : string)
| TypeError (msg : string)
| AttributeError (msg : string)
| DelegateError (detail : string).

Inductive result (A : Type) : Type :=
| Ok (a : A)
| Raise (e : exn).
Arguments Ok {A} a.
Arguments Raise {A} e.

Module PyDict.

(** [d.get(k)], [None] standing for a missing key. *)
Fixpoint dict_get (d : pydict) (k : string) : option pyval :=
  match d with
  | [] => None
  | (k', v) :: d' => if decide (k' = k) then Some v else dict_get d' k
  end.

(** [d[k] = v]: the value is replaced where the key already is, a new
    key goes to the end. *)
Fixpoint dict_set (k : string) (v : pyval) (d : pydict) : pydict :=
  match d with
  | [] => [(k, v)]
  | (k', v') :: d' =>
      if decide (k' = k) then (k, v) :: d' else (k', v') :: dict_set k v d'
  end.

(** [d.update(other)]: the items of [other], in order, are stored in [d]. *)
Definition dict_update (d other : pydict) : pydict :=
  foldl (fun acc kv => dict_set kv.1 kv.2 acc) d other.

Definition keys (d : pydict) : list string := d.*1.

(** [bool(v)]. *)
Definition truthy (v : pyval) : bool :=
  match v with
  | VNone => false
  | VBool b => b
  | VInt z => negb (Z.eqb z 0)
  | VFloat x => negb (PrimFloat.eqb x PrimFloat.zero)
  | VStr s => negb (String.eqb s "")
  | VList l => match l with [] => false | _ => true end
  | VDict d => match d with [] => false | _ => true end
  end.

(** [v == s] for a string literal [s]: only an equal string is equal. *)
Definition eq_str (v : pyval) (s : string) : bool :=
  match v with
  | VStr s' => bool_decide (s' = s)
  | _ => false
  end.

(** [v[k]] for a string key [k]. *)
Definition subscript (v : pyval) (k : string) : result pyval :=
  match v with
  | VDict d =>
      match dict_get d k with
      | Some x => Ok x
      | None => Raise (KeyError k)
      end
  | VList _ => Raise (TypeError "list indices must be integers or slices, not str")
  | VStr _ => Raise (TypeError "string indices must be integers")
  | VNone => Raise (TypeError "'NoneType' object is not subscriptable")
  | VBool _ => Raise (TypeError "'bool' object is not subscriptable")
  | VInt _ => Raise (TypeError "'int' object is not subscriptable")
  | VFloat _ => Raise (TypeError "'float' object is not subscriptable")
  end.

End PyDict.
Import PyDict.

(** ** The world: a heap of endpoint dictionaries and the delegate's log *)

Abbreviation loc := positive.

(** One call received by the HTTP delegate. *)
Inductive request : Type :=
| Get (url : string) (params : option pydict)
| Post (url : string) (data : pydict) (files : option pydict).

Record world : Type := World {
  heap : gmap loc (gmap string string);
  calls : list request
}.

Definition M (A : Type) : Type := world -> result A * world.

Definition ret {A} (a : A) : M A := fun w => (Ok a, w).
Definition raise {A} (e : exn) : M A := fun w => (Raise e, w).
Definition bind {A B} (m : M A) (k : A -> M B) : M B :=
  fun w =>
    match m w with
    | (Ok a, w') => k a w'
    | (Raise e, w') => (Raise e, w')
    end.
Definition lift {A} (r : result A) : M A := fun w => (r, w).

#[global] Instance M_ret : MRet M := @ret.
#[global] Instance M_bind : MBind M := fun A B k m => bind m k.

Module Heap.

(** The dictionary stored at [l]. *)
Definition read (w : world) (l : loc) : gmap string string :=
  default ∅ (heap w !! l).

Definition write (l : loc) (m : gmap string string) (w : world) : world :=
  World (<[l := m]> (heap w)) (calls w).

(** [deepcopy(d)] for a dictionary of strings: a new object with the
    same items. *)
Definition deepcopy (l : loc) : M loc :=
  fun w =>
    let l' := fresh (dom (heap w)) in
    (Ok l', write l' (read w l) w).

(** [d.update(other)] on the object at [l]; the items of [other] win. *)
Definition update (l : loc) (other : gmap string string) : M unit :=
  fun w => (Ok tt, write l (other ∪ read w l) w).

(** Any in-place mutation of the object at [l]: [d[k] = v], [del d[k]],
    [d.clear()], ... *)
Definition mutate (l : loc) (f : gmap string string -> gmap string string)
  : M unit :=
  fun w => (Ok tt, write l (f (read w l)) w).

(** [d[k]]. *)
Definition getitem (l : loc) (k : string) : M string :=
  fun w =>
    match read w l !! k with
    | Some v => (Ok v, w)
    | None => (Raise (KeyError k), w)
    end.

End Heap.

(** ** URL joining *)

Module Compat.

(** [s.split(c)]: the pieces of [s] between the occurrences of [c]. *)
Fixpoint split (c : ascii) (s : string) : list string :=
  match s with
  | EmptyString => [EmptyString]
  | String a s' =>
      if Ascii.eqb a c then EmptyString :: split c s'
      else match split c s' with
           | [] => [String a EmptyString]
           | h :: t => String a h :: t
           end
  end.

(** The longest prefix of [s] with no character in [stop], and the rest. *)
Fixpoint span (stop : ascii -> bool) (s : string) : string * string :=
  match s with
  | EmptyString => (EmptyString, EmptyString)
  | String a s' =>
      if stop a then (EmptyString, s)
      else let '(h, t) := span stop s' in (String a h, t)
  end.

Definition tail (s : string) : string :=
  match s with EmptyString => EmptyString | String _ s' => s' end.

Definition nonempty (s : string) : bool :=
  match s with EmptyString => false | String _ _ => true end.

Definition starts_with_slash (s : string) : bool :=
  match s with String "/" _ => true | _ => false end.

Definition between (lo hi : nat) (a : ascii) : bool :=
  (lo <=? nat_of_ascii a)%nat && (nat_of_ascii a <=? hi)%nat.
Definition is_alpha (a : ascii) : bool := between 65 90 a || between 97 122 a.
Definition is_scheme_char (a : ascii) : bool :=
  is_alpha a || between 48 57 a
  || Ascii.eqb a "+" || Ascii.eqb a "-" || Ascii.eqb a ".".
Definition lower_ascii (a : ascii) : ascii :=
  if between 65 90 a then ascii_of_nat (nat_of_ascii a + 32) else a.
Fixpoint lower (s : string) : string :=
  match s with
  | EmptyString => EmptyString
  | String a s' => String (lower_ascii a) (lower s')
  end.
Fixpoint all_chars (p : ascii -> bool) (s : string) : bool :=
  match s with
  | EmptyString => true
  | String a s' => p a && all_chars p s'
  end.

(** The five components of a URL. *)
Record parts : Type := Parts {
  scheme : string; netloc : string; path : string;
  query : string; fragment : string
}.

(** The schemes whose references are resolved against a base, and the
    schemes that have a network location. *)
Definition uses_relative : list string :=
  [""; "ftp"; "http"; "gopher"; "nntp"; "imap"; "wais"; "file"; "https";
   "shttp"; "mms"; "prospero"; "rtsp"; "rtsps"; "rtspu"; "sftp"; "svn";
   "svn+ssh"; "ws"; "wss"].
Definition uses_netloc : list string :=
  [""; "ftp"; "http"; "gopher"; "nntp"; "telnet"; "imap"; "wais"; "file";
   "mms"; "https"; "shttp"; "snews"; "prospero"; "rtsp"; "rtsps"; "rtspu";
   "rsync"; "svn"; "svn+ssh"; "sftp"; "nfs"; "git"; "git+ssh"; "ws"; "wss";
   "itms-services"].

(** Control characters and the space, which are dropped from the front
    of a URL. *)
Definition blank (a : ascii) : bool := (nat_of_ascii a <=? 32)%nat.

Fixpoint lstrip_blank (s : string) : string :=
  match s with
  | EmptyString => EmptyString
  | String a s' => if blank a then lstrip_blank s' else s
  end.

(** Tab, line feed and carriage return, which are dropped wherever they
    stand. *)
Definition unsafe (a : ascii) : bool :=
  Ascii.eqb a "009" || Ascii.eqb a "010" || Ascii.eqb a "013".

Fixpoint remove_unsafe (s : string) : string :=
  match s with
  | EmptyString => EmptyString
  | String a s' =>
      if unsafe a then remove_unsafe s' else String a (remove_unsafe s')
  end.

(** [scheme:rest], when what stands before the first colon is a scheme. *)
Definition split_scheme (default_scheme url : string) : string * string :=
  let '(pre, rest) := span (Ascii.eqb ":") url in
  match pre, rest with
  | String a _, String _ rest' =>
      if is_alpha a && all_chars is_scheme_char pre
      then (lower pre, rest') else (default_scheme, url)
  | _, _ => (default_scheme, url)
  end.

Definition split_netloc (url : string) : string * string :=
  match url with
  | String "/" (String "/" r) =>
      span (fun a => Ascii.eqb a "/" || Ascii.eqb a "?" || Ascii.eqb a "#") r
  | _ => (EmptyString, url)
  end.

Definition urlsplit (url default_scheme : string) : parts :=
  let url := remove_unsafe (lstrip_blank url) in
  let '(sch, url) := split_scheme default_scheme url in
  let '(net, url) := split_netloc url in
  let '(url, frag) := span (Ascii.eqb "#") url in
  let '(url, qry) := span (Ascii.eqb "?") url in
  Parts sch net url (tail qry) (tail frag).

Definition urlunsplit (p : parts) : string :=
  let url := path p in
  let url :=
    if nonempty (netloc p)
       || (nonempty (scheme p) && bool_decide (scheme p ∈ uses_netloc)
           && negb (String.prefix "//" url))
    then "//" +:+ netloc p
         +:+ (if nonempty url && negb (starts_with_slash url)
              then "/" +:+ url else url)
    else url in
  let url := if nonempty (scheme p) then scheme p +:+ ":" +:+ url else url in
  let url := if nonempty (query p) then url +:+ "?" +:+ query p else url in
  if nonempty (fragment p) then url +:+ "#" +:+ fragment p else url.

(** [segments[1:-1] = filter(None, segments[1:-1])]: empty segments go,
    except the first and the last. *)
Definition squeeze (segments : list string) : list string :=
  match segments with
  | [] => []
  | first :: rest =>
      match rest with
      | [] => [first]
      | _ => (first :: filter (fun s => nonempty s = true) (removelast rest)
               ++ [List.last rest EmptyString])%list
      end
  end.

(** Dot segments: [..] drops the segment before it, [.] is skipped. *)
Definition resolve_step (acc : list string) (seg : string) : list string :=
  if bool_decide (seg = "..") then removelast acc
  else if bool_decide (seg = ".") then acc
  else (acc ++ [seg])%list.

Definition resolve (segments : list string) : list string :=
  foldl resolve_step [] segments.

(** The schemes whose last path segment may carry parameters. *)
Definition uses_params : list string :=
  [""; "ftp"; "hdl"; "prospero"; "http"; "imap"; "https"; "shttp"; "rtsp";
   "rtsps"; "rtspu"; "sip"; "sips"; "mms"; "sftp"; "tel"].

(** The path without the parameters of its last segment, and these
    parameters: what follows the first semicolon after the last slash. *)
Definition split_params (sch pth : string) : string * string :=
  if bool_decide (sch ∈ uses_params) then
    let segments := split "/" pth in
    let '(seg, rest) := span (Ascii.eqb ";") (List.last segments EmptyString) in
    match rest with
    | EmptyString => (pth, EmptyString)
    | String _ params =>
        (String.concat "/" (removelast segments ++ [seg])%list, params)
    end
  else (pth, EmptyString).

Definition with_params (pth params : string) : string :=
  if nonempty params then pth +:+ ";" +:+ params else pth.

(** Modelled from the spec: [urljoin] comes from [scrapyd_api.compat],
    which is not among the sources; the specification asks for the
    "standard base+relative URL joining rules".  This is the join of a
    base and a reference by components, as Python's standard library
    does it: a reference with its own scheme or network location
    replaces the base, an absolute path replaces the base's path, a
    relative path is merged with the base's path after its last segment
    is dropped, and dot segments are resolved.  A network location with
    an unmatched bracket, which the library refuses, is outside this
    model. *)
Definition urljoin (base url : string) : string :=
  if negb (nonempty base) then url
  else if negb (nonempty url) then base
  else
    let b := urlsplit base EmptyString in
    let '(bpath, bparams) := split_params (scheme b) (path b) in
    let u := urlsplit url (scheme b) in
    let '(upath, uparams) := split_params (scheme u) (path u) in
    if negb (bool_decide (scheme u = scheme b))
       || negb (bool_decide (scheme u ∈ uses_relative))
    then url
    else if bool_decide (scheme u ∈ uses_netloc) && nonempty (netloc u)
    then urlunsplit
           (Parts (scheme u) (netloc u) (with_params upath uparams)
              (query u) (fragment u))
    else
      let net :=
        if bool_decide (scheme u ∈ uses_netloc) then netloc b else netloc u in
      if negb (nonempty upath) && negb (nonempty uparams)
      then urlunsplit
             (Parts (scheme u) net (with_params bpath bparams)
                (if nonempty (query u) then query u else query b)
                (fragment u))
      else
        let base_parts := split "/" bpath in
        let base_parts :=
          if nonempty (List.last base_parts EmptyString)
          then removelast base_parts else base_parts in
        let segments :=
          if starts_with_slash upath then split "/" upath
          else squeeze (base_parts ++ split "/" upath)%list in
        let resolved := resolve segments in
        let resolved :=
          if bool_decide (List.last segments EmptyString ∈ ["."; ".."])
          then (resolved ++ [EmptyString])%list else resolved in
        let joined := String.concat "/" resolved in
        urlunsplit
          (Parts (scheme u) net
             (with_params (if nonempty joined then joined else "/") uparams)
             (query u) (fragment u)).

End Compat.

(** ** The shape of ordinary targets and endpoint paths *)

Module UrlShape.












End UrlShape.

(** ** The delegate and the module constants *)

(** A requests-like client: the capability the facade needs. *)
Record Client : Type := {
  auth : option (string * string);
  get : string -> option pydict -> result pyval;
  post : string -> pydict -> option pydict -> result pyval
}.

(** [client.auth = auth]. *)
Definition set_auth (c : Client) (a : option (string * string)) : Client :=
  {| auth := a; get := get c; post := post c |}.

(** The world after the delegate has received [r]. *)
Definition logged (w : world) (r : request) : world :=
  World (heap w) (calls w ++ [r]).

(** [client.get(url, params=params)], recorded in the log. *)
Definition call_get (c : Client) (url : string) (params : option pydict)
  : M pyval :=
  fun w => (get c url params, logged w (Get url params)).

(** [client.post(url, data=data, files=files)], recorded in the log. *)
Definition call_post (c : Client) (url : string) (data : pydict)
    (files : option pydict) : M pyval :=
  fun w => (post c url data files, logged w (Post url data files)).

(** The module [constants], which the wrapper imports: the endpoint
    names and the dictionary object of default paths. *)
Record Constants : Type := {
  DEFAULT_ENDPOINTS : loc;
  ADD_VERSION_ENDPOINT : string;
  CANCEL_ENDPOINT : string;
  DELETE_PROJECT_ENDPOINT : string;
  DELETE_VERSION_ENDPOINT : string;
  LIST_JOBS_ENDPOINT : string;
  LIST_PROJECTS_ENDPOINT : string;
  LIST_SPIDERS_ENDPOINT : string;
  LIST_VERSIONS_ENDPOINT : string;
  SCHEDULE_ENDPOINT : string
}.

Record ScrapydAPI : Type := {
  target : string;
  client : Client;
  endpoints : loc
}.

(** [try: m except KeyError: h]. *)
Definition except_KeyError {A} (m : M A) (h : M A) : M A :=
  fun w =>
    match m w with
    | (Raise (KeyError _), w') => h w'
    | r => r
    end.

(** [iteritems(d)]: the items of a dictionary, in its order. *)
Definition iteritems (v : pyval) : result pydict :=
  match v with
  | VDict d => Ok d
  | _ => Raise (AttributeError "object has no attribute 'items'")
  end.

(** ** class ScrapydAPI *)

Section Wrapper.

Variable constants : Constants.

(** What [Client()] returns. *)
Variable Client_new : Client.

(** The text Python gives for a float, a list or a dictionary, which
    [format] falls back to. *)
Variable repr : pyval -> string.

(** ['{0}'.format(v)]. *)
Definition format_value (v : pyval) : string :=
  match v with
  | VStr s => s
  | VInt z => pretty z
  | VBool true => "True"
  | VBool false => "False"
  | VNone => "None"
  | VFloat _ | VList _ | VDict _ => repr v
  end.

Definition __init__ (target : option string) (auth : option (string * string))
    (endpoints : option (gmap string string)) (client : option Client)
  : M ScrapydAPI :=
  let target := default "http://localhost:6800" target in
  let endpoints := default ∅ endpoints in
  let client :=
    match client with
    | None => set_auth Client_new auth
    | Some c => c
    end in
  l ← Heap.deepcopy (DEFAULT_ENDPOINTS constants);
  Heap.update l endpoints;;
  mret {| target := target; client := client; endpoints := l |}.

Definition _build_url (self : ScrapydAPI) (endpoint : string) : M string :=
  path ← except_KeyError
            (Heap.getitem (endpoints self) endpoint)
            (raise (ValueError ("Unknown endpoint `" +:+ endpoint +:+ "`")));
  mret (Compat.urljoin (target self) path).

Definition add_version (self : ScrapydAPI) (project version egg : pyval)
  : M pyval :=
  url ← _build_url self (ADD_VERSION_ENDPOINT constants);
  let data := [("project", project); ("version", version)] in
  let files := [("egg", egg)] in
  json ← call_post (client self) url data (Some files);
  lift (subscript json "spiders").

Definition cancel (self : ScrapydAPI) (project job : pyval) : M pyval :=
  url ← _build_url self (CANCEL_ENDPOINT constants);
  let data := [("project", project); ("job", job)] in
  json ← call_post (client self) url data None;
  prevstate ← lift (subscript json "prevstate");
  mret (VBool (if eq_str prevstate "running" then true else false)).

Definition delete_project (self : ScrapydAPI) (project : pyval) : M pyval :=
  url ← _build_url self (DELETE_PROJECT_ENDPOINT constants);
  let data := [("project", project)] in
  call_post (client self) url data None;;
  mret (VBool true).

Definition delete_version (self : ScrapydAPI) (project version : pyval)
  : M pyval :=
  url ← _build_url self (DELETE_VERSION_ENDPOINT constants);
  let data := [("project", project); ("version", version)] in
  call_post (client self) url data None;;
  mret (VBool true).

Definition list_jobs (self : ScrapydAPI) (project : pyval) : M pyval :=
  url ← _build_url self (LIST_JOBS_ENDPOINT constants);
  let params := [("project", project)] in
  jobs ← call_get (client self) url (Some params);
  mret jobs.

Definition list_projects (self : ScrapydAPI) : M pyval :=
  url ← _build_url self (LIST_PROJECTS_ENDPOINT constants);
  json ← call_get (client self) url None;
  lift (subscript json "projects").

Definition list_spiders (self : ScrapydAPI) (project : pyval) : M pyval :=
  url ← _build_url self (LIST_SPIDERS_ENDPOINT constants);
  let params := [("project", project)] in
  json ← call_get (client self) url (Some params);
  lift (subscript json "spiders").

Definition list_versions (self : ScrapydAPI) (project : pyval) : M pyval :=
  url ← _build_url self (LIST_VERSIONS_ENDPOINT constants);
  let params := [("project", project)] in
  json ← call_get (client self) url (Some params);
  lift (subscript json "versions").

(** The [setting] strings of a settings dictionary, one per item. *)
Definition setting_params (items : pydict) : list pyval :=
  (fun kv => VStr (kv.1 +:+ "=" +:+ format_value kv.2)) <$> items.

(** The form data of [schedule], as lines 148 to 157 build it. *)
Definition schedule_data (project spider settings : pyval) (kwargs : pydict)
  : result pydict :=
  let data := [("project", project); ("spider", spider)] in
  let data := dict_update data kwargs in
  if truthy settings then
    match iteritems settings with
    | Ok items => Ok (dict_set "setting" (VList (setting_params items)) data)
    | Raise e => Raise e
    end
  else Ok data.

Definition schedule (self : ScrapydAPI) (project spider settings : pyval)
    (kwargs : pydict) : M pyval :=
  url ← _build_url self (SCHEDULE_ENDPOINT constants);
  data ← lift (schedule_data project spider settings kwargs);
  json ← call_post (client self) url data None;
  lift (subscript json "jobid").

(** *** Calling [schedule]

    [def schedule(self, project, spider, settings=None, **kwargs)]: the
    positional arguments fill [project], [spider] and [settings] in that
    order, a keyword with the name of a parameter fills that parameter,
    and only the other keywords reach [kwargs]. *)

Definition schedule_params : list string := ["project"; "spider"; "settings"].

(** The first keyword that names a parameter already filled by position
    ([self] always is). *)
Definition clash (npos : nat) (kw : pydict) : option string :=
  head (filter (fun k => k ∈ "self" :: take npos schedule_params) (keys kw)).

Definition bind_param (i : nat) (name : string) (args : list pyval)
    (kw : pydict) : option pyval :=
  match args !! i with
  | Some v => Some v
  | None => dict_get kw name
  end.

Definition bind_schedule (args : list pyval) (kw : pydict)
  : result (pyval * pyval * pyval * pydict) :=
  if decide (3 < length args)%nat then
    Raise (TypeError ("schedule() takes from 3 to 4 positional arguments but "
                      +:+ pretty (S (length args)) +:+ " were given"))
  else
    match clash (length args) kw with
    | Some k =>
        Raise (TypeError ("schedule() got multiple values for argument '"
                          +:+ k +:+ "'"))
    | None =>
        let kwargs := filter (fun kv => kv.1 ∉ schedule_params) kw in
        match bind_param 0 "project" args kw, bind_param 1 "spider" args kw with
        | Some project, Some spider =>
            Ok (project, spider,
                default VNone (bind_param 2 "settings" args kw), kwargs)
        | None, Some _ =>
            Raise (TypeError
              "schedule() missing 1 required positional argument: 'project'")
        | Some _, None =>
            Raise (TypeError
              "schedule() missing 1 required positional argument: 'spider'")
        | None, None =>
            Raise (TypeError
              "schedule() missing 2 required positional arguments: 'project' and 'spider'")
        end
    end.

(** A call of [self.schedule] with positional arguments [args] and
    keywords [kw]. *)
Definition schedule_call (self : ScrapydAPI) (args : list pyval) (kw : pydict)
  : M pyval :=
  '(project, spider, settings, kwargs) ← lift (bind_schedule args kw);
  schedule self project spider settings kwargs.

End Wrapper.

(** ** A concrete service, on which the statements below are exercised *)

Module Demo.

Definition demo_constants : Constants :=
  {| DEFAULT_ENDPOINTS := 1%positive;
     ADD_VERSION_ENDPOINT := "add_version";
     CANCEL_ENDPOINT := "cancel";
     DELETE_PROJECT_ENDPOINT := "delete_project";
     DELETE_VERSION_ENDPOINT := "delete_version";
     LIST_JOBS_ENDPOINT := "list_jobs";
     LIST_PROJECTS_ENDPOINT := "list_projects";
     LIST_SPIDERS_ENDPOINT := "list_spiders";
     LIST_VERSIONS_ENDPOINT := "list_versions";
     SCHEDULE_ENDPOINT := "schedule" |}.

Definition demo_defaults : gmap string string :=
  list_to_map
    [("add_version", "addversion.json"); ("cancel", "cancel.json");
     ("delete_project", "delproject.json");
     ("delete_version", "delversion.json");
     ("list_jobs", "listjobs.json"); ("list_projects", "listprojects.json");
     ("list_spiders", "listspiders.json");
     ("list_versions", "listversions.json"); ("schedule", "schedule.json")].

(** The heap after the module [constants] is loaded, nothing sent yet. *)
Definition demo_world : world :=
  World {[1%positive := demo_defaults]} [].

(** A delegate that answers every request with [body]. *)
Definition demo_client (body : pyval) : Client :=
  {| auth := None;
     get := fun _ _ => Ok body;
     post := fun _ _ _ => Ok body |}.

(** A facade that shares no dictionary with the defaults: its endpoint
    map is the object at location 2. *)
Definition demo_api (body : pyval) : ScrapydAPI :=
  {| target := "http://host:6800"; client := demo_client body;
     endpoints := 2%positive |}.

Definition demo_world2 : world :=
  World {[1%positive := demo_defaults; 2%positive := demo_defaults]} [].

(** A facade whose endpoint map is empty. *)
Definition bare_world : world :=
  World {[1%positive := demo_defaults; 2%positive := ∅]} [].

(** A stand-in for [repr] on floats and containers; the examples format
    strings, integers, booleans and [None] only. *)
Definition demo_repr (v : pyval) : string := "<repr>".

(** A delegate that fails on every request with [e], and a facade on it. *)
Definition failing_client (e : exn) : Client :=
  {| auth := None;
     get := fun _ _ => Raise e;
     post := fun _ _ _ => Raise e |}.

Definition failing_api (e : exn) : ScrapydAPI :=
  {| target := "http://host:6800"; client := failing_client e;
     endpoints := 2%positive |}.



End Demo.
Import Demo.

(** * Properties *)

(** ** URL joining on examples *)

Example urljoin_relative_paths :
  Compat.urljoin "http://host:6800/api/" "x.json" = "http://host:6800/api/x.json" /\
  Compat.urljoin "http://host:6800/api" "x.json" = "http://host:6800/x.json" /\
  Compat.urljoin "http://host:6800/api" "/x.json" = "http://host:6800/x.json" /\
  Compat.urljoin "http://host:6800/a/b/c" "../x.json?q=1#f"
    = "http://host:6800/a/x.json?q=1#f" /\
  Compat.urljoin "http://host:6800/a/b/c" "https://other/y" = "https://other/y" /\
  Compat.urljoin "http://host:6800/a/b/c" "//other/y" = "http://other/y".
Proof. vm_compute. repeat split. Qed.

(** ** Running the monad *)

Ltac run :=
  unfold mbind, M_bind, bind, mret, M_ret, ret, lift, raise, except_KeyError,
    Heap.getitem, call_post, call_get; simpl.

Section Resolution.

Variable constants : Constants.
Variables (self : ScrapydAPI) (w : world).

Lemma build_url_known endpoint path :
  Heap.read w (endpoints self) !! endpoint = Some path ->
  _build_url self endpoint w = (Ok (Compat.urljoin (target self) path), w).
Proof. intros H. unfold _build_url. run. rewrite H. reflexivity. Qed.

Lemma build_url_unknown endpoint :
  Heap.read w (endpoints self) !! endpoint = None ->
  _build_url self endpoint w
  = (Raise (ValueError ("Unknown endpoint `" +:+ endpoint +:+ "`")), w).
Proof. intros H. unfold _build_url. run. rewrite H. reflexivity. Qed.

End Resolution.

Ltac resolve_with H :=
  unfold mbind, M_bind, bind;
  first [ rewrite (build_url_known _ _ _ _ H)
        | rewrite (build_url_unknown _ _ _ H) ]; run.

(** ** cancel *)

(** C1. Whatever the response of the delegate, as long as it carries a
    field [prevstate], [cancel] returns a boolean that is [true] exactly
    when that field is the string [running], and [false] for every other
    value. *)
Theorem cancel_true_iff_prevstate_running
    (constants : Constants) (self : ScrapydAPI) (project job : pyval)
    (w : world) (path : string) (body : pydict) (prevstate : pyval) :
  Heap.read w (endpoints self) !! CANCEL_ENDPOINT constants = Some path ->
  post (client self) (Compat.urljoin (target self) path)
       [("project", project); ("job", job)] None = Ok (VDict body) ->
  dict_get body "prevstate" = Some prevstate ->
  exists b : bool,
    (cancel constants self project job w).1 = Ok (VBool b)
    /\ (b = true <-> prevstate = VStr "running")
    /\ (prevstate <> VStr "running" -> b = false).
Proof.
  intros Hpath Hpost Hfield.
  unfold cancel. resolve_with Hpath. rewrite Hpost. simpl.
  rewrite Hfield. simpl.
  destruct prevstate as [| | | |s| |]; simpl;
    try solve [exists false; split; [reflexivity|];
               split; [split; discriminate | intros _; reflexivity]].
  case_bool_decide as Hs.
  - subst s. exists true. split; [reflexivity|].
    split; [split; reflexivity | intros Hne; by destruct Hne].
  - exists false. split; [reflexivity|].
    split; [split; [discriminate | intros Heq; inversion Heq; contradiction]
           | reflexivity].
Qed.

Lemma cancel_true_iff_prevstate_running_witness :
  (exists b : bool,
     (cancel demo_constants (demo_api (VDict [("prevstate", VStr "running")]))
        (VStr "myproject") (VStr "job1") demo_world2).1 = Ok (VBool b)
     /\ (b = true <-> VStr "running" = VStr "running")
     /\ (VStr "running" <> VStr "running" -> b = false))
  /\ (exists b : bool,
     (cancel demo_constants (demo_api (VDict [("prevstate", VStr "finished")]))
        (VStr "myproject") (VStr "job1") demo_world2).1 = Ok (VBool b)
     /\ (b = true <-> VStr "finished" = VStr "running")
     /\ (VStr "finished" <> VStr "running" -> b = false)).
Proof.
  split.
  - apply (cancel_true_iff_prevstate_running demo_constants
             (demo_api (VDict [("prevstate", VStr "running")]))
             (VStr "myproject") (VStr "job1") demo_world2 "cancel.json"
             [("prevstate", VStr "running")]); reflexivity.
  - apply (cancel_true_iff_prevstate_running demo_constants
             (demo_api (VDict [("prevstate", VStr "finished")]))
             (VStr "myproject") (VStr "job1") demo_world2 "cancel.json"
             [("prevstate", VStr "finished")]); reflexivity.
Defined.

(** ** Unknown endpoints *)

(** C2. When a name is absent from the endpoint map of the instance, URL
    resolution raises [ValueError] with a message that contains the name,
    whatever the target and the other contents of the map, and the world
    is left as it was: the delegate has received nothing.  The same holds
    for each public operation whose endpoint name is absent. *)
Theorem unknown_endpoint_fails_before_any_call
    (constants : Constants) (repr : pyval -> string) (self : ScrapydAPI)
    (w : world) (endpoint : string) :
  Heap.read w (endpoints self) !! endpoint = None ->
  let failure (name : string) : result pyval * world :=
    (Raise (ValueError ("Unknown endpoint `" +:+ name +:+ "`")), w) in
  _build_url self endpoint w
  = (Raise (ValueError ("Unknown endpoint `" +:+ endpoint +:+ "`")), w)
  /\ (endpoint = ADD_VERSION_ENDPOINT constants ->
      forall project version egg,
        add_version constants self project version egg w = failure endpoint)
  /\ (endpoint = CANCEL_ENDPOINT constants ->
      forall project job, cancel constants self project job w = failure endpoint)
  /\ (endpoint = DELETE_PROJECT_ENDPOINT constants ->
      forall project, delete_project constants self project w = failure endpoint)
  /\ (endpoint = DELETE_VERSION_ENDPOINT constants ->
      forall project version,
        delete_version constants self project version w = failure endpoint)
  /\ (endpoint = LIST_JOBS_ENDPOINT constants ->
      forall project, list_jobs constants self project w = failure endpoint)
  /\ (endpoint = LIST_PROJECTS_ENDPOINT constants ->
      list_projects constants self w = failure endpoint)
  /\ (endpoint = LIST_SPIDERS_ENDPOINT constants ->
      forall project, list_spiders constants self project w = failure endpoint)
  /\ (endpoint = LIST_VERSIONS_ENDPOINT constants ->
      forall project, list_versions constants self project w = failure endpoint)
  /\ (endpoint = SCHEDULE_ENDPOINT constants ->
      forall project spider settings kwargs,
        schedule constants repr self project spider settings kwargs w
        = failure endpoint).
Proof.
  intros Hnone failure. subst failure.
  split; [by apply build_url_unknown|].
  repeat split; intros ->; intros;
    unfold add_version, cancel, delete_project, delete_version, list_jobs,
      list_projects, list_spiders, list_versions, schedule;
    resolve_with Hnone; reflexivity.
Qed.

Lemma unknown_endpoint_fails_before_any_call_witness :
  _build_url (demo_api VNone) "nosuch" demo_world2
  = (Raise (ValueError "Unknown endpoint `nosuch`"), demo_world2)
  /\ list_projects demo_constants (demo_api VNone) bare_world
     = (Raise (ValueError "Unknown endpoint `list_projects`"), bare_world)
  /\ calls bare_world = [].
Proof.
  split.
  - apply (unknown_endpoint_fails_before_any_call demo_constants demo_repr
             (demo_api VNone) demo_world2 "nosuch"). reflexivity.
  - split; [|reflexivity].
    apply (unknown_endpoint_fails_before_any_call demo_constants demo_repr
             (demo_api VNone) bare_world "list_projects"); reflexivity.
Defined.

(** ** Deleting *)

(** C7. [delete_project] and [delete_version] return [True] whenever the
    call to the delegate succeeds, whatever the response is: the body is
    not looked at. *)
Theorem delete_returns_true_on_any_response
    (constants : Constants) (self : ScrapydAPI) (project version : pyval)
    (w : world) (path_p path_v : string) (body_p body_v : pyval) :
  Heap.read w (endpoints self) !! DELETE_PROJECT_ENDPOINT constants
    = Some path_p ->
  Heap.read w (endpoints self) !! DELETE_VERSION_ENDPOINT constants
    = Some path_v ->
  post (client self) (Compat.urljoin (target self) path_p)
       [("project", project)] None = Ok body_p ->
  post (client self) (Compat.urljoin (target self) path_v)
       [("project", project); ("version", version)] None = Ok body_v ->
  delete_project constants self project w
  = (Ok (VBool true),
     logged w (Post (Compat.urljoin (target self) path_p)
                 [("project", project)] None))
  /\ delete_version constants self project version w
     = (Ok (VBool true),
        logged w (Post (Compat.urljoin (target self) path_v)
                    [("project", project); ("version", version)] None)).
Proof.
  intros Hp Hv Hbody_p Hbody_v. split.
  - unfold delete_project. resolve_with Hp. by rewrite Hbody_p.
  - unfold delete_version. resolve_with Hv. by rewrite Hbody_v.
Qed.

Lemma delete_returns_true_on_any_response_witness :
  let api := demo_api (VDict [("status", VStr "error")]) in
  (delete_project demo_constants api (VStr "myproject") demo_world2).1
  = Ok (VBool true)
  /\ (delete_version demo_constants api (VStr "myproject") (VStr "r1")
        demo_world2).1 = Ok (VBool true).
Proof.
  intros api.
  destruct (delete_returns_true_on_any_response demo_constants api
              (VStr "myproject") (VStr "r1") demo_world2
              "delproject.json" "delversion.json"
              (VDict [("status", VStr "error")])
              (VDict [("status", VStr "error")])) as [Hp Hv];
    try reflexivity.
  split; [by rewrite Hp | by rewrite Hv].
Defined.

(** ** Listing *)

(** C6. [list_jobs] returns what the delegate answered, as it is;
    [list_projects], [list_spiders] and [list_versions] return the value
    of the field [projects], [spiders] and [versions] of the response,
    unchanged. *)
Theorem list_operations_pass_the_response_through
    (constants : Constants) (self : ScrapydAPI) (project : pyval) (w : world)
    (path_j path_p path_s path_v : string) :
  Heap.read w (endpoints self) !! LIST_JOBS_ENDPOINT constants = Some path_j ->
  Heap.read w (endpoints self) !! LIST_PROJECTS_ENDPOINT constants
    = Some path_p ->
  Heap.read w (endpoints self) !! LIST_SPIDERS_ENDPOINT constants
    = Some path_s ->
  Heap.read w (endpoints self) !! LIST_VERSIONS_ENDPOINT constants
    = Some path_v ->
  let url (path : string) := Compat.urljoin (target self) path in
  let params := Some [("project", project)] in
  list_jobs constants self project w
  = (get (client self) (url path_j) params, logged w (Get (url path_j) params))
  /\ (forall body value,
        get (client self) (url path_p) None = Ok (VDict body) ->
        dict_get body "projects" = Some value ->
        list_projects constants self w
        = (Ok value, logged w (Get (url path_p) None)))
  /\ (forall body value,
        get (client self) (url path_s) params = Ok (VDict body) ->
        dict_get body "spiders" = Some value ->
        list_spiders constants self project w
        = (Ok value, logged w (Get (url path_s) params)))
  /\ (forall body value,
        get (client self) (url path_v) params = Ok (VDict body) ->
        dict_get body "versions" = Some value ->
        list_versions constants self project w
        = (Ok value, logged w (Get (url path_v) params))).
Proof.
  intros Hj Hp Hs Hv url params. subst url params.
  split; [|split; [|split]].
  - unfold list_jobs. resolve_with Hj.
    by destruct (get (client self) _ _).
  - intros body value Hget Hfield.
    unfold list_projects. resolve_with Hp. rewrite Hget. simpl.
    by rewrite Hfield.
  - intros body value Hget Hfield.
    unfold list_spiders. resolve_with Hs. rewrite Hget. simpl.
    by rewrite Hfield.
  - intros body value Hget Hfield.
    unfold list_versions. resolve_with Hv. rewrite Hget. simpl.
    by rewrite Hfield.
Qed.

Lemma list_operations_pass_the_response_through_witness :
  let unsorted := VList [VStr "zeta"; VStr "alpha"; VStr ""; VStr "zeta"] in
  let body :=
    VDict [("status", VStr "ok"); ("projects", unsorted);
           ("spiders", unsorted); ("versions", unsorted)] in
  (list_jobs demo_constants (demo_api body) (VStr "myproject") demo_world2).1
  = Ok body
  /\ (list_projects demo_constants (demo_api body) demo_world2).1 = Ok unsorted
  /\ (list_spiders demo_constants (demo_api body) (VStr "myproject")
        demo_world2).1 = Ok unsorted
  /\ (list_versions demo_constants (demo_api body) (VStr "myproject")
        demo_world2).1 = Ok unsorted.
Proof.
  intros unsorted body.
  destruct (list_operations_pass_the_response_through demo_constants
              (demo_api body) (VStr "myproject") demo_world2
              "listjobs.json" "listprojects.json" "listspiders.json"
              "listversions.json") as (Hj & Hp & Hs & Hv);
    try reflexivity.
  split; [by rewrite Hj|].
  split; [by erewrite Hp|].
  split; [by erewrite Hs | by erewrite Hv].
Defined.

(** ** Missing fields *)

(** C8. When the delegate answers with a body that lacks the field an
    operation extracts, the operation raises [KeyError] for that field,
    after the one call to the delegate, and nothing catches or replaces
    it. *)
Theorem missing_field_raises_KeyError
    (constants : Constants) (repr : pyval -> string) (self : ScrapydAPI)
    (w : world) (endpoint path : string) (body : pydict) :
  Heap.read w (endpoints self) !! endpoint = Some path ->
  let url := Compat.urljoin (target self) path in
  let missing (field : string) (r : request) : result pyval * world :=
    (Raise (KeyError field), logged w r) in
  (forall project version egg,
     endpoint = ADD_VERSION_ENDPOINT constants ->
     let data := [("project", project); ("version", version)] in
     post (client self) url data (Some [("egg", egg)]) = Ok (VDict body) ->
     dict_get body "spiders" = None ->
     add_version constants self project version egg w
     = missing "spiders" (Post url data (Some [("egg", egg)])))
  /\ (forall project job,
        endpoint = CANCEL_ENDPOINT constants ->
        let data := [("project", project); ("job", job)] in
        post (client self) url data None = Ok (VDict body) ->
        dict_get body "prevstate" = None ->
        cancel constants self project job w
        = missing "prevstate" (Post url data None))
  /\ (endpoint = LIST_PROJECTS_ENDPOINT constants ->
      get (client self) url None = Ok (VDict body) ->
      dict_get body "projects" = None ->
      list_projects constants self w = missing "projects" (Get url None))
  /\ (forall project,
        endpoint = LIST_SPIDERS_ENDPOINT constants ->
        let params := Some [("project", project)] in
        get (client self) url params = Ok (VDict body) ->
        dict_get body "spiders" = None ->
        list_spiders constants self project w
        = missing "spiders" (Get url params))
  /\ (forall project,
        endpoint = LIST_VERSIONS_ENDPOINT constants ->
        let params := Some [("project", project)] in
        get (client self) url params = Ok (VDict body) ->
        dict_get body "versions" = None ->
        list_versions constants self project w
        = missing "versions" (Get url params))
  /\ (forall project spider settings kwargs data,
        endpoint = SCHEDULE_ENDPOINT constants ->
        schedule_data repr project spider settings kwargs = Ok data ->
        post (client self) url data None = Ok (VDict body) ->
        dict_get body "jobid" = None ->
        schedule constants repr self project spider settings kwargs w
        = missing "jobid" (Post url data None)).
Proof.
  intros Hpath url missing. subst url missing.
  repeat split; intros; subst endpoint;
    repeat match goal with x := _ |- _ => subst x end;
    unfold add_version, cancel, list_projects, list_spiders, list_versions,
      schedule;
    resolve_with Hpath;
    repeat match goal with
      | H : _ = Ok _ |- _ => rewrite H; simpl
      | H : dict_get _ _ = None |- _ => rewrite H; simpl
      end; reflexivity.
Qed.

Lemma missing_field_raises_KeyError_witness :
  let body := [("status", VStr "error"); ("message", VStr "no such project")] in
  (add_version demo_constants (demo_api (VDict body))
     (VStr "myproject") (VStr "r1") (VStr "egg-bytes") demo_world2).1
  = Raise (KeyError "spiders")
  /\ (schedule demo_constants demo_repr (demo_api (VDict body))
        (VStr "myproject") (VStr "myspider") VNone [] demo_world2).1
     = Raise (KeyError "jobid").
Proof.
  intros body. split.
  - destruct (missing_field_raises_KeyError demo_constants demo_repr
                (demo_api (VDict body)) demo_world2
                "add_version" "addversion.json" body) as (Ha & _);
      [reflexivity|].
    by rewrite (Ha (VStr "myproject") (VStr "r1") (VStr "egg-bytes")).
  - destruct (missing_field_raises_KeyError demo_constants demo_repr
                (demo_api (VDict body)) demo_world2
                "schedule" "schedule.json" body) as (_ & _ & _ & _ & _ & Hs);
      [reflexivity|].
    by rewrite (Hs (VStr "myproject") (VStr "myspider") VNone []
                  [("project", VStr "myproject"); ("spider", VStr "myspider")]).
Defined.

(** ** Construction and the heap *)

Section HeapFacts.

Variable w : world.

Lemma read_write_eq l m : Heap.read (Heap.write l m w) l = m.
Proof. unfold Heap.read, Heap.write. simpl. by rewrite lookup_insert_eq. Qed.

Lemma read_write_ne l l' m :
  l <> l' -> Heap.read (Heap.write l m w) l' = Heap.read w l'.
Proof.
  intros Hne. unfold Heap.read, Heap.write. simpl.
  by rewrite lookup_insert_ne.
Qed.

Lemma fresh_unallocated : heap w !! fresh (dom (heap w)) = None.
Proof. apply not_elem_of_dom. apply is_fresh. Qed.

Lemma allocated_not_fresh l m :
  heap w !! l = Some m -> fresh (dom (heap w)) <> l.
Proof. intros Hl Heq. rewrite <- Heq, fresh_unallocated in Hl. discriminate. Qed.

Lemma read_allocated l m : heap w !! l = Some m -> Heap.read w l = m.
Proof. intros Hl. unfold Heap.read. by rewrite Hl. Qed.

End HeapFacts.

(** What [__init__] does to the world: one new object, holding the
    defaults with the overrides on top; nothing else moves. *)
Lemma init_allocates
    (constants : Constants) (Client_new : Client) (w : world)
    (defaults : gmap string string) (t : option string)
    (a : option (string * string)) (e : option (gmap string string))
    (c : option Client) :
  heap w !! DEFAULT_ENDPOINTS constants = Some defaults ->
  exists x : ScrapydAPI,
    __init__ constants Client_new t a e c w
    = (Ok x, Heap.write (endpoints x) (default ∅ e ∪ defaults) w)
    /\ heap w !! endpoints x = None.
Proof.
  intros Hd.
  exists {| target := default "http://localhost:6800" t;
            client := match c with
                      | None => set_auth Client_new a
                      | Some c' => c'
                      end;
            endpoints := fresh (dom (heap w)) |}.
  split; [|apply fresh_unallocated].
  unfold __init__, Heap.deepcopy, Heap.update. run.
  rewrite read_write_eq, (read_allocated _ _ _ Hd).
  unfold Heap.write. simpl. by rewrite insert_insert_eq.
Qed.

(** C3. Construction gives the instance a new dictionary holding the
    defaults with the caller's overrides merged on top: an overridden key
    has the caller's value, every other key its default.  Construction
    sends nothing and leaves the default set as it was.  Two instances
    built from the same default set hold different objects, so any
    mutation [f] of the map of one changes neither the map of the other
    nor the default set. *)
Theorem endpoint_maps_are_independent_copies
    (constants : Constants) (Client_new : Client) (w : world)
    (defaults : gmap string string)
    (t1 t2 : option string) (a1 a2 : option (string * string))
    (e1 e2 : option (gmap string string)) (c1 c2 : option Client)
    (f : gmap string string -> gmap string string) :
  heap w !! DEFAULT_ENDPOINTS constants = Some defaults ->
  exists (x y : ScrapydAPI) (w1 w2 : world),
    __init__ constants Client_new t1 a1 e1 c1 w = (Ok x, w1)
    /\ __init__ constants Client_new t2 a2 e2 c2 w1 = (Ok y, w2)
    /\ Heap.read w1 (endpoints x) = default ∅ e1 ∪ defaults
    /\ Heap.read w2 (endpoints y) = default ∅ e2 ∪ defaults
    /\ (forall k v, default ∅ e1 !! k = Some v ->
                    Heap.read w1 (endpoints x) !! k = Some v)
    /\ (forall k, default ∅ e1 !! k = None ->
                  Heap.read w1 (endpoints x) !! k = defaults !! k)
    /\ Heap.read w1 (DEFAULT_ENDPOINTS constants) = defaults
    /\ Heap.read w2 (DEFAULT_ENDPOINTS constants) = defaults
    /\ Heap.read w2 (endpoints x) = Heap.read w1 (endpoints x)
    /\ calls w2 = calls w
    /\ (let w3 := (Heap.mutate (endpoints x) f w2).2 in
        Heap.read w3 (endpoints x) = f (Heap.read w2 (endpoints x))
        /\ Heap.read w3 (endpoints y) = Heap.read w2 (endpoints y)
        /\ Heap.read w3 (DEFAULT_ENDPOINTS constants) = defaults)
    /\ (let w3 := (Heap.mutate (endpoints y) f w2).2 in
        Heap.read w3 (endpoints y) = f (Heap.read w2 (endpoints y))
        /\ Heap.read w3 (endpoints x) = Heap.read w2 (endpoints x)
        /\ Heap.read w3 (DEFAULT_ENDPOINTS constants) = defaults).
Proof.
  intros Hd.
  destruct (init_allocates constants Client_new w defaults t1 a1 e1 c1 Hd)
    as (x & Hx & Hfx).
  set (w1 := Heap.write (endpoints x) (default ∅ e1 ∪ defaults) w) in *.
  assert (Hxd : endpoints x <> DEFAULT_ENDPOINTS constants).
  { intros Heq. rewrite Heq, Hd in Hfx. discriminate. }
  assert (Hd1 : heap w1 !! DEFAULT_ENDPOINTS constants = Some defaults).
  { unfold w1, Heap.write. simpl. by rewrite lookup_insert_ne. }
  destruct (init_allocates constants Client_new w1 defaults t2 a2 e2 c2 Hd1)
    as (y & Hy & Hfy).
  set (w2 := Heap.write (endpoints y) (default ∅ e2 ∪ defaults) w1) in *.
  assert (Hyd : endpoints y <> DEFAULT_ENDPOINTS constants).
  { intros Heq. rewrite Heq, Hd1 in Hfy. discriminate. }
  assert (Hyx : endpoints y <> endpoints x).
  { intros Heq. rewrite Heq in Hfy. unfold w1, Heap.write in Hfy. simpl in Hfy.
    rewrite lookup_insert_eq in Hfy. discriminate. }
  assert (Hr1 : Heap.read w1 (endpoints x) = default ∅ e1 ∪ defaults)
    by apply read_write_eq.
  assert (Hr2 : Heap.read w2 (endpoints y) = default ∅ e2 ∪ defaults)
    by apply read_write_eq.
  assert (Hrd1 : Heap.read w1 (DEFAULT_ENDPOINTS constants) = defaults)
    by (by apply read_allocated).
  assert (Hrd2 : Heap.read w2 (DEFAULT_ENDPOINTS constants) = defaults).
  { unfold w2. by rewrite read_write_ne. }
  exists x, y, w1, w2.
  split; [exact Hx|]. split; [exact Hy|].
  split; [exact Hr1|]. split; [exact Hr2|].
  split.
  { intros k v Hk. rewrite Hr1. by apply lookup_union_Some_l. }
  split.
  { intros k Hk. rewrite Hr1. by rewrite lookup_union_r. }
  split; [exact Hrd1|]. split; [exact Hrd2|].
  split. { unfold w2. by rewrite read_write_ne. }
  split. { reflexivity. }
  split; simpl.
  - split; [apply read_write_eq|].
    split; [by rewrite read_write_ne | by rewrite read_write_ne].
  - split; [apply read_write_eq|].
    split; [by rewrite read_write_ne | by rewrite read_write_ne].
Qed.

Lemma endpoint_maps_are_independent_copies_witness :
  exists (x y : ScrapydAPI) (w1 w2 : world),
    __init__ demo_constants (demo_client VNone) None None
      (Some {["cancel" := "stop.json"]}) None demo_world = (Ok x, w1)
    /\ __init__ demo_constants (demo_client VNone) None None None None w1
       = (Ok y, w2)
    /\ Heap.read w1 (endpoints x) !! "cancel" = Some "stop.json"
    /\ Heap.read w1 (endpoints x) !! "schedule" = Some "schedule.json"
    /\ Heap.read w2 (endpoints y) !! "cancel" = Some "cancel.json"
    /\ (let w3 := (Heap.mutate (endpoints x) (fun _ => ∅) w2).2 in
        Heap.read w3 (endpoints x) = ∅
        /\ Heap.read w3 (endpoints y) !! "cancel" = Some "cancel.json"
        /\ Heap.read w3 1%positive = demo_defaults).
Proof.
  destruct (endpoint_maps_are_independent_copies demo_constants
              (demo_client VNone) demo_world demo_defaults None None None None
              (Some {["cancel" := "stop.json"]}) None None None (fun _ => ∅))
    as (x & y & w1 & w2 & Hx & Hy & Hr1 & Hr2 & _ & _ & _ & _ & _ & _
        & (Hm1 & Hm2 & Hm3) & _);
    [reflexivity|].
  exists x, y, w1, w2.
  split; [exact Hx|]. split; [exact Hy|].
  split; [by rewrite Hr1|]. split; [by rewrite Hr1|].
  split; [by rewrite Hr2|].
  split; [exact Hm1|]. split; [|exact Hm3].
  simpl in Hm2. simpl. rewrite Hm2, Hr2. reflexivity.
Defined.

(** ** Dictionaries in insertion order *)

Section DictFacts.

Implicit Types (d other : pydict) (k : string) (v : pyval).

Lemma dict_get_set_eq k v d : dict_get (dict_set k v d) k = Some v.
Proof.
  induction d as [|[k' v'] d IH]; simpl.
  - by rewrite decide_True.
  - destruct (decide (k' = k)) as [->|Hne]; simpl.
    + by rewrite decide_True.
    + by rewrite decide_False.
Qed.

Lemma dict_get_set_ne k k' v d :
  k <> k' -> dict_get (dict_set k v d) k' = dict_get d k'.
Proof.
  intros Hne. induction d as [|[k1 v1] d IH]; simpl.
  - by rewrite decide_False.
  - destruct (decide (k1 = k)) as [->|Hne1]; simpl.
    + by rewrite !decide_False.
    + by rewrite IH.
Qed.

Lemma dict_get_update_notin d other k :
  k ∉ keys other -> dict_get (dict_update d other) k = dict_get d k.
Proof.
  revert d. induction other as [|[k1 v1] other IH]; intros d Hk; [done|].
  unfold keys in *. simpl in *.
  apply not_elem_of_cons in Hk as [Hne Hk].
  change (dict_get (dict_update (dict_set k1 v1 d) other) k = dict_get d k).
  rewrite (IH _ Hk). by apply dict_get_set_ne.
Qed.

Lemma dict_get_update_in d other k v :
  NoDup (keys other) -> (k, v) ∈ other ->
  dict_get (dict_update d other) k = Some v.
Proof.
  revert d. induction other as [|[k1 v1] other IH]; intros d Hnd Hin.
  - by apply elem_of_nil in Hin.
  - unfold keys in *. simpl in Hnd. apply NoDup_cons in Hnd as [Hk1 Hnd].
    change (dict_get (dict_update (dict_set k1 v1 d) other) k = Some v).
    apply elem_of_cons in Hin as [Heq|Hin].
    + inversion Heq; subst k1 v1.
      rewrite (dict_get_update_notin _ _ _ Hk1). apply dict_get_set_eq.
    + by apply IH.
Qed.

Lemma dict_get_None_notin d k : k ∉ keys d -> dict_get d k = None.
Proof.
  induction d as [|[k1 v1] d IH]; [done|].
  unfold keys. simpl. intros [Hne Hk]%not_elem_of_cons.
  rewrite decide_False by done. by apply IH.
Qed.

Lemma dict_get_Some_in d k v : dict_get d k = Some v -> k ∈ keys d.
Proof.
  induction d as [|[k1 v1] d IH]; [done|].
  unfold keys. simpl. destruct (decide (k1 = k)) as [->|Hne].
  - intros _. apply elem_of_cons. by left.
  - intros H. apply elem_of_cons. right. by apply IH.
Qed.

End DictFacts.

(** ** schedule: the form data *)

(** The data [schedule] sends when the settings are a dictionary with at
    least one item. *)
Lemma schedule_data_settings
    (repr : pyval -> string) (project spider : pyval) (items kwargs : pydict) :
  items <> [] ->
  schedule_data repr project spider (VDict items) kwargs
  = Ok (dict_set "setting" (VList (setting_params repr items))
          (dict_update [("project", project); ("spider", spider)] kwargs)).
Proof. intros Hne. unfold schedule_data. by destruct items. Qed.

(** The data [schedule] sends when the settings are [None] or empty. *)
Lemma schedule_data_no_settings
    (repr : pyval -> string) (project spider settings : pyval)
    (kwargs : pydict) :
  truthy settings = false ->
  schedule_data repr project spider settings kwargs
  = Ok (dict_update [("project", project); ("spider", spider)] kwargs).
Proof. intros Hf. unfold schedule_data. by rewrite Hf. Qed.

(** [schedule] sends its data once and extracts [jobid] from the answer. *)
Lemma schedule_posts
    (constants : Constants) (repr : pyval -> string) (self : ScrapydAPI)
    (project spider settings : pyval) (kwargs data : pydict) (w : world)
    (path : string) :
  Heap.read w (endpoints self) !! SCHEDULE_ENDPOINT constants = Some path ->
  schedule_data repr project spider settings kwargs = Ok data ->
  schedule constants repr self project spider settings kwargs w
  = (match post (client self) (Compat.urljoin (target self) path) data None with
     | Ok json => subscript json "jobid"
     | Raise e => Raise e
     end,
     logged w (Post (Compat.urljoin (target self) path) data None)).
Proof.
  intros Hpath Hdata. unfold schedule. resolve_with Hpath.
  rewrite Hdata. simpl. by destruct (post (client self) _ _ _).
Qed.

(** C4. When a settings dictionary with items is passed to [schedule],
    the data sent to the delegate has a field [setting] holding, for
    each item in order, the string made of the name, an equals sign and
    the text of the value, with nothing escaped: a string is inserted as
    it is, an integer in decimal, a boolean as [True] or [False], [None]
    as [None], and a float, a list or a dictionary as Python prints it.
    The settings [{"DOWNLOAD_DELAY": "2"}] give [["DOWNLOAD_DELAY=2"]]. *)
Theorem schedule_serializes_settings
    (constants : Constants) (repr : pyval -> string) (self : ScrapydAPI)
    (project spider : pyval) (items kwargs : pydict) (w : world)
    (path : string) :
  Heap.read w (endpoints self) !! SCHEDULE_ENDPOINT constants = Some path ->
  items <> [] ->
  let text (value : pyval) : string :=
    match value with
    | VStr s => s
    | VInt z => pretty z
    | VBool true => "True"
    | VBool false => "False"
    | VNone => "None"
    | VFloat _ | VList _ | VDict _ => repr value
    end in
  exists data : pydict,
    (schedule constants repr self project spider (VDict items) kwargs w).2
    = logged w (Post (Compat.urljoin (target self) path) data None)
    /\ dict_get data "setting"
       = Some (VList ((fun kv => VStr (kv.1 +:+ "=" +:+ text kv.2)) <$> items))
    /\ (forall name value : string,
          (name, VStr value) ∈ items ->
          exists strings,
            dict_get data "setting" = Some (VList strings)
            /\ VStr (name +:+ "=" +:+ value) ∈ strings)
    /\ (items = [("DOWNLOAD_DELAY", VStr "2")] ->
        dict_get data "setting" = Some (VList [VStr "DOWNLOAD_DELAY=2"])).
Proof.
  intros Hpath Hne text.
  pose proof (schedule_data_settings repr project spider items kwargs Hne)
    as Hdata.
  eexists. split.
  { by rewrite (schedule_posts _ _ _ _ _ _ _ _ _ _ Hpath Hdata). }
  assert (Hsetting :
    dict_get (dict_set "setting" (VList (setting_params repr items))
                (dict_update [("project", project); ("spider", spider)] kwargs))
      "setting"
    = Some (VList ((fun kv => VStr (kv.1 +:+ "=" +:+ text kv.2)) <$> items))).
  { rewrite dict_get_set_eq. reflexivity. }
  split; [exact Hsetting|]. split.
  - intros name value Hin. eexists. split; [exact Hsetting|].
    apply (list_elem_of_fmap_2'
             (fun kv => VStr (kv.1 +:+ "=" +:+ text kv.2))
             _ (name, VStr value)); [exact Hin | reflexivity].
  - intros ->. exact Hsetting.
Qed.

Lemma schedule_serializes_settings_witness :
  exists data : pydict,
    (schedule demo_constants demo_repr (demo_api (VDict [("jobid", VStr "j1")]))
       (VStr "myproject") (VStr "myspider")
       (VDict [("DOWNLOAD_DELAY", VStr "2"); ("USER_AGENT", VStr "a b=c");
               ("DEPTH_LIMIT", VInt 3); ("RETRY_TIMES", VInt 0);
               ("OFFSET", VInt (-12)); ("COOKIES_ENABLED", VBool false);
               ("ROBOTSTXT_OBEY", VBool true); ("FEED_URI", VNone)])
       [] demo_world2).2
    = logged demo_world2 (Post "http://host:6800/schedule.json" data None)
    /\ dict_get data "setting"
       = Some (VList [VStr "DOWNLOAD_DELAY=2"; VStr "USER_AGENT=a b=c";
                      VStr "DEPTH_LIMIT=3"; VStr "RETRY_TIMES=0";
                      VStr "OFFSET=-12"; VStr "COOKIES_ENABLED=False";
                      VStr "ROBOTSTXT_OBEY=True"; VStr "FEED_URI=None"]).
Proof.
  destruct (schedule_serializes_settings demo_constants demo_repr
              (demo_api (VDict [("jobid", VStr "j1")]))
              (VStr "myproject") (VStr "myspider")
              [("DOWNLOAD_DELAY", VStr "2"); ("USER_AGENT", VStr "a b=c");
               ("DEPTH_LIMIT", VInt 3); ("RETRY_TIMES", VInt 0);
               ("OFFSET", VInt (-12)); ("COOKIES_ENABLED", VBool false);
               ("ROBOTSTXT_OBEY", VBool true); ("FEED_URI", VNone)]
              [] demo_world2 "schedule.json")
    as (data & Hsent & Hsetting & _); [reflexivity | discriminate |].
  exists data. split; [exact Hsent | exact Hsetting].
Defined.

(** ** schedule: extra keyword arguments *)

Lemma dict_get_update_is_Some (d other : pydict) (k : string) :
  is_Some (dict_get d k) -> is_Some (dict_get (dict_update d other) k).
Proof.
  revert d. induction other as [|[k1 v1] other IH]; intros d Hd; [done|].
  change (is_Some (dict_get (dict_update (dict_set k1 v1 d) other) k)).
  apply IH. destruct (decide (k1 = k)) as [->|Hne].
  - rewrite dict_get_set_eq. by eexists.
  - by rewrite dict_get_set_ne.
Qed.

(** C5, as stated, fails: with a non-empty settings dictionary, an extra
    keyword named [setting] does not reach the delegate; the strings of
    the settings take its place. *)
Lemma schedule_extra_setting_is_replaced :
  let kw := [("setting", VStr "LOG_LEVEL=DEBUG")] in
  let run :=
    schedule_call demo_constants demo_repr
      (demo_api (VDict [("jobid", VStr "j1")]))
      [VStr "myproject"; VStr "myspider"; VDict [("DOWNLOAD_DELAY", VStr "2")]]
      kw demo_world2 in
  calls run.2
  = [Post "http://host:6800/schedule.json"
       [("project", VStr "myproject"); ("spider", VStr "myspider");
        ("setting", VList [VStr "DOWNLOAD_DELAY=2"])] None]
  /\ ~ (forall data,
          calls run.2 = [Post "http://host:6800/schedule.json" data None] ->
          forall k v, (k, v) ∈ kw -> dict_get data k = Some v).
Proof.
  intros kw run.
  assert (Hcalls : calls run.2
    = [Post "http://host:6800/schedule.json"
         [("project", VStr "myproject"); ("spider", VStr "myspider");
          ("setting", VList [VStr "DOWNLOAD_DELAY=2"])] None])
    by reflexivity.
  split; [exact Hcalls|].
  intros H.
  specialize (H _ Hcalls "setting" (VStr "LOG_LEVEL=DEBUG")).
  assert (Hin : ("setting", VStr "LOG_LEVEL=DEBUG") ∈ kw)
    by apply list_elem_of_here.
  specialize (H Hin). vm_compute in H. discriminate.
Qed.

(** C5, amended. [schedule] sends one request whose data has the fields
    [project] and [spider] and, next to them, every extra keyword as a
    field of its own, except an extra named [setting] when the settings
    are not empty; it returns the field [jobid] of the answer. *)
Theorem schedule_sends_extras_as_fields
    (constants : Constants) (repr : pyval -> string) (self : ScrapydAPI)
    (project spider : pyval) (settings : option pydict) (kwargs : pydict)
    (w : world) (path : string) :
  Heap.read w (endpoints self) !! SCHEDULE_ENDPOINT constants = Some path ->
  NoDup (keys kwargs) ->
  let s := from_option VDict VNone settings in
  let url := Compat.urljoin (target self) path in
  exists data : pydict,
    schedule constants repr self project spider s kwargs w
    = (match post (client self) url data None with
       | Ok json => subscript json "jobid"
       | Raise e => Raise e
       end, logged w (Post url data None))
    /\ is_Some (dict_get data "project")
    /\ is_Some (dict_get data "spider")
    /\ ("project" ∉ keys kwargs -> dict_get data "project" = Some project)
    /\ ("spider" ∉ keys kwargs -> dict_get data "spider" = Some spider)
    /\ (forall k v, (k, v) ∈ kwargs ->
                    k <> "setting" \/ truthy s = false ->
                    dict_get data k = Some v)
    /\ (forall body jobid,
          post (client self) url data None = Ok (VDict body) ->
          dict_get body "jobid" = Some jobid ->
          (schedule constants repr self project spider s kwargs w).1 = Ok jobid).
Proof.
  intros Hpath Hnd s url.
  set (base := [("project", project); ("spider", spider)]).
  assert (Hbase : forall k, k = "project" \/ k = "spider" ->
                            is_Some (dict_get (dict_update base kwargs) k)).
  { intros k [-> | ->]; apply dict_get_update_is_Some; by eexists. }
  assert (Hposted : forall data,
    schedule_data repr project spider s kwargs = Ok data ->
    schedule constants repr self project spider s kwargs w
    = (match post (client self) url data None with
       | Ok json => subscript json "jobid"
       | Raise e => Raise e
       end, logged w (Post url data None))
    /\ forall body jobid,
         post (client self) url data None = Ok (VDict body) ->
         dict_get body "jobid" = Some jobid ->
         (schedule constants repr self project spider s kwargs w).1 = Ok jobid).
  { intros data Hdata.
    pose proof (schedule_posts constants repr self project spider s kwargs
                  data w path Hpath Hdata) as Hrun.
    split; [exact Hrun|].
    intros body jobid Hpost Hjob. rewrite Hrun. simpl.
    fold url. rewrite Hpost. simpl. by rewrite Hjob. }
  destruct (truthy s) eqn:Htruthy.
  - (* settings with items: [setting] is stored last *)
    destruct settings as [[|item items]|]; try discriminate.
    assert (Hdata : schedule_data repr project spider s kwargs
      = Ok (dict_set "setting" (VList (setting_params repr (item :: items)))
              (dict_update base kwargs)))
      by (by apply schedule_data_settings).
    destruct (Hposted _ Hdata) as [Hrun Hjob].
    eexists. split; [exact Hrun|].
    split. { rewrite dict_get_set_ne by done. apply Hbase. by left. }
    split. { rewrite dict_get_set_ne by done. apply Hbase. by right. }
    split. { intros Hk. rewrite dict_get_set_ne by done.
             by rewrite dict_get_update_notin. }
    split. { intros Hk. rewrite dict_get_set_ne by done.
             by rewrite dict_get_update_notin. }
    split; [|exact Hjob].
    intros k v Hin [Hk | Hf]; [|discriminate].
    rewrite dict_get_set_ne by done. by apply dict_get_update_in.
  - (* no settings: the data are the positional fields and the extras *)
    assert (Hdata : schedule_data repr project spider s kwargs
                    = Ok (dict_update base kwargs))
      by (by apply schedule_data_no_settings).
    destruct (Hposted _ Hdata) as [Hrun Hjob].
    eexists. split; [exact Hrun|].
    split. { apply Hbase. by left. }
    split. { apply Hbase. by right. }
    split. { intros Hk. by rewrite dict_get_update_notin. }
    split. { intros Hk. by rewrite dict_get_update_notin. }
    split; [|exact Hjob].
    intros k v Hin _. by apply dict_get_update_in.
Qed.

Lemma schedule_sends_extras_as_fields_witness :
  exists data : pydict,
    schedule demo_constants demo_repr (demo_api (VDict [("jobid", VStr "j1")]))
      (VStr "myproject") (VStr "myspider") VNone
      [("priority", VInt 5); ("jobid", VStr "mine")] demo_world2
    = (Ok (VStr "j1"),
       logged demo_world2 (Post "http://host:6800/schedule.json" data None))
    /\ dict_get data "project" = Some (VStr "myproject")
    /\ dict_get data "spider" = Some (VStr "myspider")
    /\ dict_get data "priority" = Some (VInt 5)
    /\ dict_get data "jobid" = Some (VStr "mine").
Proof.
  destruct (schedule_sends_extras_as_fields demo_constants demo_repr
              (demo_api (VDict [("jobid", VStr "j1")]))
              (VStr "myproject") (VStr "myspider") None
              [("priority", VInt 5); ("jobid", VStr "mine")]
              demo_world2 "schedule.json")
    as (data & Hrun & _ & _ & Hp & Hs & Hextra & _).
  - reflexivity.
  - compute_done.
  - exists data. split; [exact Hrun|].
    split; [apply Hp; compute_done|].
    split; [apply Hs; compute_done|].
    split; apply Hextra; try (by right); repeat constructor.
Defined.

(** ** schedule: how a call binds its arguments *)

Lemma kwargs_exclude_params (kw : pydict) (k : string) :
  k ∈ schedule_params ->
  k ∉ keys (filter (fun kv => kv.1 ∉ schedule_params) kw).
Proof.
  intros Hk Hin. unfold keys in Hin.
  apply list_elem_of_fmap in Hin as [[k' v] [-> Hf]].
  apply list_elem_of_filter in Hf as [Hn _]. simpl in *. contradiction.
Qed.

Lemma clash_found (npos : nat) (kw : pydict) (name : string) :
  name ∈ keys kw -> name ∈ "self" :: take npos schedule_params ->
  is_Some (clash npos kw).
Proof.
  intros Hkw Hpos. unfold clash. apply head_is_Some.
  intros Hnil.
  assert (Hin : name ∈ filter (fun k => k ∈ "self" :: take npos schedule_params)
                         (keys kw))
    by (by apply list_elem_of_filter).
  rewrite Hnil in Hin. by apply elem_of_nil in Hin.
Qed.

Lemma bind_schedule_Ok (args : list pyval) (kw : pydict)
    (project spider settings : pyval) (kwargs : pydict) :
  bind_schedule args kw = Ok (project, spider, settings, kwargs) ->
  kwargs = filter (fun kv => kv.1 ∉ schedule_params) kw
  /\ bind_param 0 "project" args kw = Some project
  /\ bind_param 1 "spider" args kw = Some spider.
Proof.
  unfold bind_schedule. destruct (decide _); [discriminate|].
  destruct (clash _ _); [discriminate|].
  destruct (bind_param 0 _ _ _), (bind_param 1 _ _ _); try discriminate.
  intros Heq. by inversion Heq.
Qed.

(** C10, as stated, fails: a keyword named [project] next to the
    positional argument does not replace anything; the call is rejected
    with [TypeError] and nothing is sent. *)
Lemma schedule_call_rejects_project_keyword :
  let run :=
    schedule_call demo_constants demo_repr
      (demo_api (VDict [("jobid", VStr "j1")]))
      [VStr "myproject"; VStr "myspider"] [("project", VStr "other")]
      demo_world2 in
  run = (Raise (TypeError "schedule() got multiple values for argument 'project'"),
         demo_world2)
  /\ ~ (exists data url,
          Post url data None ∈ calls run.2
          /\ dict_get data "project" = Some (VStr "other")).
Proof.
  intros run.
  assert (Hrun : run
    = (Raise (TypeError "schedule() got multiple values for argument 'project'"),
       demo_world2)) by reflexivity.
  split; [exact Hrun|].
  intros (data & url & Hin & _). rewrite Hrun in Hin. simpl in Hin.
  by apply elem_of_nil in Hin.
Qed.

(** C10, amended.  The extras are merged after [project] and [spider]
    are set, but an extra can never carry one of these names: a call
    that gives [project] or [spider] both by position and by keyword is
    rejected with [TypeError] before anything is sent, and in every call
    that is accepted the extras have neither key, so the data sent hold
    the values bound to [project] and [spider]. *)
Theorem schedule_call_keeps_bound_arguments
    (constants : Constants) (repr : pyval -> string) (self : ScrapydAPI)
    (args : list pyval) (kw : pydict) (w : world) :
  (forall (i : nat) (name : string),
     (i = 0%nat /\ name = "project") \/ (i = 1%nat /\ name = "spider") ->
     is_Some (args !! i) -> name ∈ keys kw ->
     exists msg,
       schedule_call constants repr self args kw w = (Raise (TypeError msg), w))
  /\ (forall project spider settings kwargs,
        bind_schedule args kw = Ok (project, spider, settings, kwargs) ->
        schedule_call constants repr self args kw w
        = schedule constants repr self project spider settings kwargs w
        /\ ("project" ∉ keys kwargs) /\ ("spider" ∉ keys kwargs)
        /\ (forall p, args !! 0%nat = Some p -> project = p)
        /\ (forall s, args !! 1%nat = Some s -> spider = s)
        /\ (truthy settings = false ->
            schedule_data repr project spider settings kwargs
            = Ok (dict_update [("project", project); ("spider", spider)] kwargs))
        /\ (forall data,
              schedule_data repr project spider settings kwargs = Ok data ->
              dict_get data "project" = Some project
              /\ dict_get data "spider" = Some spider
              /\ (forall path,
                    Heap.read w (endpoints self) !! SCHEDULE_ENDPOINT constants
                    = Some path ->
                    (schedule_call constants repr self args kw w).2
                    = logged w (Post (Compat.urljoin (target self) path)
                                  data None)))).
Proof.
  split.
  - intros i name Hname [x Hx] Hkw.
    unfold schedule_call, bind_schedule. run.
    destruct (decide (3 < length args)%nat); [by eexists|].
    assert (Hpos : name ∈ "self" :: take (length args) schedule_params).
    { destruct Hname as [[-> ->] | [-> ->]].
      - destruct args as [|a0 args]; [discriminate|]. simpl.
        apply elem_of_cons. right. apply list_elem_of_here.
      - destruct args as [|a0 [|a1 args]]; try discriminate. simpl.
        apply elem_of_cons. right. apply elem_of_cons. right.
        apply list_elem_of_here. }
    destruct (clash_found _ _ _ Hkw Hpos) as [k Hk]. rewrite Hk. by eexists.
  - intros project spider settings kwargs Hbind.
    destruct (bind_schedule_Ok _ _ _ _ _ _ Hbind) as (Hkwargs & Hp & Hs).
    assert (Hnp : "project" ∉ keys kwargs).
    { rewrite Hkwargs. apply kwargs_exclude_params. compute_done. }
    assert (Hns : "spider" ∉ keys kwargs).
    { rewrite Hkwargs. apply kwargs_exclude_params. compute_done. }
    assert (Hcall : schedule_call constants repr self args kw w
                    = schedule constants repr self project spider settings
                        kwargs w).
    { unfold schedule_call. run. by rewrite Hbind. }
    split; [exact Hcall|]. split; [exact Hnp|]. split; [exact Hns|].
    split. { intros p Ha. unfold bind_param in Hp. rewrite Ha in Hp. congruence. }
    split. { intros s Ha. unfold bind_param in Hs. rewrite Ha in Hs. congruence. }
    split. { apply schedule_data_no_settings. }
    intros data Hdata.
    assert (Hfields : dict_get data "project" = Some project
                      /\ dict_get data "spider" = Some spider).
    { unfold schedule_data in Hdata.
      destruct (truthy settings).
      - destruct (iteritems settings); [|discriminate].
        inversion Hdata; subst data.
        rewrite !dict_get_set_ne by done.
        by rewrite !dict_get_update_notin.
      - inversion Hdata; subst data. by rewrite !dict_get_update_notin. }
    destruct Hfields as [Hfp Hfs].
    split; [exact Hfp|]. split; [exact Hfs|].
    intros path Hpath. rewrite Hcall.
    by rewrite (schedule_posts _ _ _ _ _ _ _ _ _ _ Hpath Hdata).
Qed.

Lemma schedule_call_keeps_bound_arguments_witness :
  (exists msg,
     schedule_call demo_constants demo_repr
       (demo_api (VDict [("jobid", VStr "j1")]))
       [VStr "myproject"; VStr "myspider"] [("spider", VStr "other")]
       demo_world2
     = (Raise (TypeError msg), demo_world2))
  /\ (schedule_call demo_constants demo_repr
        (demo_api (VDict [("jobid", VStr "j1")]))
        [VStr "myproject"] [("spider", VStr "myspider"); ("priority", VInt 5)]
        demo_world2).2
     = logged demo_world2
         (Post "http://host:6800/schedule.json"
            [("project", VStr "myproject"); ("spider", VStr "myspider");
             ("priority", VInt 5)] None).
Proof.
  split.
  - destruct (schedule_call_keeps_bound_arguments demo_constants demo_repr
                (demo_api (VDict [("jobid", VStr "j1")]))
                [VStr "myproject"; VStr "myspider"] [("spider", VStr "other")]
                demo_world2) as [Hreject _].
    apply (Hreject 1%nat "spider").
    + right. split; reflexivity.
    + by eexists.
    + compute_done.
  - destruct (schedule_call_keeps_bound_arguments demo_constants demo_repr
                (demo_api (VDict [("jobid", VStr "j1")]))
                [VStr "myproject"]
                [("spider", VStr "myspider"); ("priority", VInt 5)]
                demo_world2) as [_ Hbound].
    destruct (Hbound (VStr "myproject") (VStr "myspider") VNone
                [("priority", VInt 5)] eq_refl)
      as (_ & _ & _ & _ & _ & _ & Hdata).
    destruct (Hdata [("project", VStr "myproject"); ("spider", VStr "myspider");
                     ("priority", VInt 5)] eq_refl) as (_ & _ & Hsent).
    apply (Hsent "schedule.json"). reflexivity.
Defined.

(** * Further properties of the wrapper *)

(** ** One request per operation *)

Ltac unfold_operations :=
  unfold add_version, cancel, delete_project, delete_version, list_jobs,
    list_projects, list_spiders, list_versions, schedule.

(** X1. With its endpoint known, every operation sends exactly one
    request, with the verb and the payload below, and leaves every
    endpoint dictionary as it is, whatever the delegate answers: a
    success, a body without the expected field, or an error. *)
Theorem every_operation_sends_one_request
    (constants : Constants) (repr : pyval -> string) (self : ScrapydAPI)
    (w : world) (endpoint path : string) :
  Heap.read w (endpoints self) !! endpoint = Some path ->
  let url := Compat.urljoin (target self) path in
  (endpoint = ADD_VERSION_ENDPOINT constants ->
   forall project version egg,
     (add_version constants self project version egg w).2
     = logged w (Post url [("project", project); ("version", version)]
                   (Some [("egg", egg)])))
  /\ (endpoint = CANCEL_ENDPOINT constants ->
      forall project job,
        (cancel constants self project job w).2
        = logged w (Post url [("project", project); ("job", job)] None))
  /\ (endpoint = DELETE_PROJECT_ENDPOINT constants ->
      forall project,
        (delete_project constants self project w).2
        = logged w (Post url [("project", project)] None))
  /\ (endpoint = DELETE_VERSION_ENDPOINT constants ->
      forall project version,
        (delete_version constants self project version w).2
        = logged w (Post url [("project", project); ("version", version)] None))
  /\ (endpoint = LIST_JOBS_ENDPOINT constants ->
      forall project,
        (list_jobs constants self project w).2
        = logged w (Get url (Some [("project", project)])))
  /\ (endpoint = LIST_PROJECTS_ENDPOINT constants ->
      (list_projects constants self w).2 = logged w (Get url None))
  /\ (endpoint = LIST_SPIDERS_ENDPOINT constants ->
      forall project,
        (list_spiders constants self project w).2
        = logged w (Get url (Some [("project", project)])))
  /\ (endpoint = LIST_VERSIONS_ENDPOINT constants ->
      forall project,
        (list_versions constants self project w).2
        = logged w (Get url (Some [("project", project)])))
  /\ (endpoint = SCHEDULE_ENDPOINT constants ->
      forall project spider settings kwargs data,
        schedule_data repr project spider settings kwargs = Ok data ->
        (schedule constants repr self project spider settings kwargs w).2
        = logged w (Post url data None)).
Proof.
  intros Hpath url. subst url.
  repeat split; intros ->; intros; unfold_operations; resolve_with Hpath;
    repeat match goal with
      | H : schedule_data _ _ _ _ _ = Ok _ |- _ => rewrite H; simpl
      | |- context [match post ?c ?u ?d ?f with _ => _ end] =>
          destruct (post c u d f); simpl
      | |- context [match get ?c ?u ?q with _ => _ end] =>
          destruct (get c u q); simpl
      | |- context [match subscript ?v ?k with _ => _ end] =>
          destruct (subscript v k); simpl
      end; reflexivity.
Qed.

Lemma every_operation_sends_one_request_witness :
  calls (cancel demo_constants (demo_api (VList [])) (VStr "myproject")
           (VStr "job1") demo_world2).2
  = [Post "http://host:6800/cancel.json"
       [("project", VStr "myproject"); ("job", VStr "job1")] None]
  /\ calls (list_projects demo_constants (failing_api (DelegateError "timeout"))
              demo_world2).2
     = [Get "http://host:6800/listprojects.json" None].
Proof.
  split.
  - destruct (every_operation_sends_one_request demo_constants demo_repr
                (demo_api (VList [])) demo_world2 "cancel" "cancel.json")
      as (_ & Hc & _); [reflexivity|].
    by rewrite Hc.
  - destruct (every_operation_sends_one_request demo_constants demo_repr
                (failing_api (DelegateError "timeout")) demo_world2
                "list_projects" "listprojects.json")
      as (_ & _ & _ & _ & _ & Hp & _); [reflexivity|].
    by rewrite Hp.
Defined.

(** ** Errors of the delegate *)

(** X2. An error raised by the delegate comes out of every operation as
    it is, after the one request; in particular [delete_project] and
    [delete_version] do not return [True] then. *)
Theorem delegate_errors_propagate
    (constants : Constants) (repr : pyval -> string) (self : ScrapydAPI)
    (w : world) (endpoint path : string) (e : exn) :
  Heap.read w (endpoints self) !! endpoint = Some path ->
  let url := Compat.urljoin (target self) path in
  (forall project version egg,
     endpoint = ADD_VERSION_ENDPOINT constants ->
     let data := [("project", project); ("version", version)] in
     post (client self) url data (Some [("egg", egg)]) = Raise e ->
     (add_version constants self project version egg w).1 = Raise e)
  /\ (forall project job,
        endpoint = CANCEL_ENDPOINT constants ->
        post (client self) url [("project", project); ("job", job)] None
        = Raise e ->
        (cancel constants self project job w).1 = Raise e)
  /\ (forall project,
        endpoint = DELETE_PROJECT_ENDPOINT constants ->
        post (client self) url [("project", project)] None = Raise e ->
        (delete_project constants self project w).1 = Raise e)
  /\ (forall project version,
        endpoint = DELETE_VERSION_ENDPOINT constants ->
        post (client self) url [("project", project); ("version", version)] None
        = Raise e ->
        (delete_version constants self project version w).1 = Raise e)
  /\ (forall project,
        endpoint = LIST_JOBS_ENDPOINT constants ->
        get (client self) url (Some [("project", project)]) = Raise e ->
        (list_jobs constants self project w).1 = Raise e)
  /\ (endpoint = LIST_PROJECTS_ENDPOINT constants ->
      get (client self) url None = Raise e ->
      (list_projects constants self w).1 = Raise e)
  /\ (forall project,
        endpoint = LIST_SPIDERS_ENDPOINT constants ->
        get (client self) url (Some [("project", project)]) = Raise e ->
        (list_spiders constants self project w).1 = Raise e)
  /\ (forall project,
        endpoint = LIST_VERSIONS_ENDPOINT constants ->
        get (client self) url (Some [("project", project)]) = Raise e ->
        (list_versions constants self project w).1 = Raise e)
  /\ (forall project spider settings kwargs data,
        endpoint = SCHEDULE_ENDPOINT constants ->
        schedule_data repr project spider settings kwargs = Ok data ->
        post (client self) url data None = Raise e ->
        (schedule constants repr self project spider settings kwargs w).1
        = Raise e).
Proof.
  intros Hpath url. subst url.
  repeat split; intros; subst endpoint;
    repeat match goal with x := _ |- _ => subst x end;
    unfold_operations; resolve_with Hpath;
    repeat match goal with
      | H : _ = Ok _ |- _ => rewrite H; simpl
      | H : _ = Raise _ |- _ => rewrite H; simpl
      end; reflexivity.
Qed.

Lemma delegate_errors_propagate_witness :
  (delete_project demo_constants (failing_api (DelegateError "503"))
     (VStr "myproject") demo_world2).1 = Raise (DelegateError "503")
  /\ (list_jobs demo_constants (failing_api (DelegateError "503"))
        (VStr "myproject") demo_world2).1 = Raise (DelegateError "503").
Proof.
  split.
  - destruct (delegate_errors_propagate demo_constants demo_repr
                (failing_api (DelegateError "503")) demo_world2
                "delete_project" "delproject.json" (DelegateError "503"))
      as (_ & _ & Hd & _); [reflexivity|].
    apply Hd; reflexivity.
  - destruct (delegate_errors_propagate demo_constants demo_repr
                (failing_api (DelegateError "503")) demo_world2
                "list_jobs" "listjobs.json" (DelegateError "503"))
      as (_ & _ & _ & _ & Hj & _); [reflexivity|].
    apply Hj; reflexivity.
Defined.

(** ** add_version *)

(** X3. [add_version] posts the project and the version as form fields
    and the egg as the file field [egg], and returns the field [spiders]
    of the answer as it is. *)
Theorem add_version_returns_spiders
    (constants : Constants) (self : ScrapydAPI) (project version egg : pyval)
    (w : world) (path : string) (body : pydict) (spiders : pyval) :
  Heap.read w (endpoints self) !! ADD_VERSION_ENDPOINT constants = Some path ->
  post (client self) (Compat.urljoin (target self) path)
       [("project", project); ("version", version)] (Some [("egg", egg)])
  = Ok (VDict body) ->
  dict_get body "spiders" = Some spiders ->
  add_version constants self project version egg w
  = (Ok spiders,
     logged w (Post (Compat.urljoin (target self) path)
                 [("project", project); ("version", version)]
                 (Some [("egg", egg)]))).
Proof.
  intros Hpath Hpost Hfield. unfold add_version. resolve_with Hpath.
  rewrite Hpost. simpl. by rewrite Hfield.
Qed.

Lemma add_version_returns_spiders_witness :
  (add_version demo_constants
     (demo_api (VDict [("status", VStr "ok");
                       ("spiders", VList [VStr "b"; VStr "a"])]))
     (VStr "myproject") (VStr "r1") (VStr "egg-bytes") demo_world2).1
  = Ok (VList [VStr "b"; VStr "a"]).
Proof.
  rewrite (add_version_returns_spiders demo_constants
             (demo_api (VDict [("status", VStr "ok");
                               ("spiders", VList [VStr "b"; VStr "a"])]))
             (VStr "myproject") (VStr "r1") (VStr "egg-bytes") demo_world2
             "addversion.json"
             [("status", VStr "ok"); ("spiders", VList [VStr "b"; VStr "a"])]
             (VList [VStr "b"; VStr "a"])); reflexivity.
Defined.

(** ** Answers that are not dictionaries *)

(** The values that cannot be subscripted with a field name. *)
Lemma subscript_not_dict (body : pyval) (field : string) :
  (forall d, body <> VDict d) ->
  exists msg, subscript body field = Raise (TypeError msg).
Proof.
  intros Hnd. destruct body; simpl; try by eexists.
  by destruct (Hnd d).
Qed.

(** X4. When the delegate answers with something that is not a
    dictionary (a list, a string, a number, [None]), the operations that
    extract a field raise [TypeError] after the request, while
    [list_jobs] returns that answer. *)
Theorem non_dict_answer_raises_TypeError
    (constants : Constants) (repr : pyval -> string) (self : ScrapydAPI)
    (w : world) (endpoint path : string) (body : pyval) :
  Heap.read w (endpoints self) !! endpoint = Some path ->
  (forall d, body <> VDict d) ->
  let url := Compat.urljoin (target self) path in
  (forall project version egg,
     endpoint = ADD_VERSION_ENDPOINT constants ->
     post (client self) url [("project", project); ("version", version)]
          (Some [("egg", egg)]) = Ok body ->
     exists msg,
       (add_version constants self project version egg w).1
       = Raise (TypeError msg))
  /\ (forall project job,
        endpoint = CANCEL_ENDPOINT constants ->
        post (client self) url [("project", project); ("job", job)] None
        = Ok body ->
        exists msg,
          (cancel constants self project job w).1 = Raise (TypeError msg))
  /\ (endpoint = LIST_PROJECTS_ENDPOINT constants ->
      get (client self) url None = Ok body ->
      exists msg, (list_projects constants self w).1 = Raise (TypeError msg))
  /\ (forall project,
        endpoint = LIST_SPIDERS_ENDPOINT constants ->
        get (client self) url (Some [("project", project)]) = Ok body ->
        exists msg,
          (list_spiders constants self project w).1 = Raise (TypeError msg))
  /\ (forall project,
        endpoint = LIST_VERSIONS_ENDPOINT constants ->
        get (client self) url (Some [("project", project)]) = Ok body ->
        exists msg,
          (list_versions constants self project w).1 = Raise (TypeError msg))
  /\ (forall project spider settings kwargs data,
        endpoint = SCHEDULE_ENDPOINT constants ->
        schedule_data repr project spider settings kwargs = Ok data ->
        post (client self) url data None = Ok body ->
        exists msg,
          (schedule constants repr self project spider settings kwargs w).1
          = Raise (TypeError msg))
  /\ (forall project,
        endpoint = LIST_JOBS_ENDPOINT constants ->
        get (client self) url (Some [("project", project)]) = Ok body ->
        (list_jobs constants self project w).1 = Ok body).
Proof.
  intros Hpath Hnd url. subst url.
  repeat split; intros; subst endpoint;
    unfold_operations; resolve_with Hpath;
    repeat match goal with
      | H : _ = Ok _ |- _ => rewrite H; simpl
      end;
    try reflexivity;
    match goal with
    | |- context [subscript body ?f] =>
        destruct (subscript_not_dict body f Hnd) as [msg Hmsg];
        rewrite Hmsg; simpl; by exists msg
    end.
Qed.

Lemma non_dict_answer_raises_TypeError_witness :
  (exists msg,
     (list_spiders demo_constants (demo_api (VList [VStr "a"]))
        (VStr "myproject") demo_world2).1 = Raise (TypeError msg))
  /\ (list_jobs demo_constants (demo_api (VList [VStr "a"]))
        (VStr "myproject") demo_world2).1 = Ok (VList [VStr "a"]).
Proof.
  split.
  - destruct (non_dict_answer_raises_TypeError demo_constants demo_repr
                (demo_api (VList [VStr "a"])) demo_world2
                "list_spiders" "listspiders.json" (VList [VStr "a"]))
      as (_ & _ & _ & Hs & _); [reflexivity | discriminate |].
    apply Hs; reflexivity.
  - destruct (non_dict_answer_raises_TypeError demo_constants demo_repr
                (demo_api (VList [VStr "a"])) demo_world2
                "list_jobs" "listjobs.json" (VList [VStr "a"]))
      as (_ & _ & _ & _ & _ & _ & Hj); [reflexivity | discriminate |].
    apply Hj; reflexivity.
Defined.

(** ** Construction, then resolution *)

(** X5. A facade built by [__init__] resolves an endpoint name through
    the overrides first and the defaults second, against the target
    given (or [http://localhost:6800]); a name in neither raises
    [ValueError].  A client passed to [__init__] is kept as it is, the
    credentials being ignored; without one, the default client receives
    the credentials.  Nothing is sent. *)
Theorem init_then_build_url
    (constants : Constants) (Client_new : Client) (w : world)
    (defaults : gmap string string) (t : option string)
    (a : option (string * string)) (e : option (gmap string string))
    (c : option Client) (endpoint : string) :
  heap w !! DEFAULT_ENDPOINTS constants = Some defaults ->
  exists (x : ScrapydAPI) (w1 : world),
    __init__ constants Client_new t a e c w = (Ok x, w1)
    /\ target x = default "http://localhost:6800" t
    /\ client x = match c with
                  | Some c' => c'
                  | None => set_auth Client_new a
                  end
    /\ calls w1 = calls w
    /\ _build_url x endpoint w1
       = (match default ∅ e !! endpoint, defaults !! endpoint with
          | Some path, _ => Ok (Compat.urljoin (target x) path)
          | None, Some path => Ok (Compat.urljoin (target x) path)
          | None, None =>
              Raise (ValueError ("Unknown endpoint `" +:+ endpoint +:+ "`"))
          end, w1).
Proof.
  intros Hd.
  set (x := {| target := default "http://localhost:6800" t;
               client := match c with
                         | None => set_auth Client_new a
                         | Some c' => c'
                         end;
               endpoints := fresh (dom (heap w)) |}).
  set (w1 := Heap.write (endpoints x) (default ∅ e ∪ defaults) w).
  assert (Hinit : __init__ constants Client_new t a e c w = (Ok x, w1)).
  { unfold __init__, Heap.deepcopy, Heap.update. run.
    rewrite read_write_eq, (read_allocated _ _ _ Hd).
    unfold w1, Heap.write. simpl. by rewrite insert_insert_eq. }
  exists x, w1. split; [exact Hinit|]. split; [reflexivity|].
  split; [by destruct c|]. split; [reflexivity|].
  assert (Hread : Heap.read w1 (endpoints x) = default ∅ e ∪ defaults)
    by apply read_write_eq.
  destruct (default ∅ e !! endpoint) as [path|] eqn:He.
  - apply build_url_known. rewrite Hread. by apply lookup_union_Some_l.
  - destruct (defaults !! endpoint) as [path|] eqn:Hdef.
    + apply build_url_known. rewrite Hread.
      by rewrite lookup_union_r.
    + apply build_url_unknown. rewrite Hread.
      by rewrite lookup_union_r.
Qed.

Lemma init_then_build_url_witness :
  exists (x : ScrapydAPI) (w1 : world),
    __init__ demo_constants (demo_client VNone) (Some "http://scrapyd:6800/")
      (Some ("user", "secret")) (Some {["cancel" := "api/stop.json"]})
      None demo_world = (Ok x, w1)
    /\ auth (client x) = Some ("user", "secret")
    /\ (_build_url x "cancel" w1).1 = Ok "http://scrapyd:6800/api/stop.json".
Proof.
  destruct (init_then_build_url demo_constants (demo_client VNone) demo_world
              demo_defaults (Some "http://scrapyd:6800/")
              (Some ("user", "secret")) (Some {["cancel" := "api/stop.json"]})
              None "cancel") as (x & w1 & Hinit & Ht & Hc & _ & Hurl);
    [reflexivity|].
  exists x, w1. split; [exact Hinit|].
  split; [by rewrite Hc|].
  rewrite Hurl, Ht. reflexivity.
Defined.

(** ** The endpoint map is read at each call *)

(** X6. URL resolution looks the name up in the instance's dictionary as
    it is when the call is made: after [self.endpoints[k] = p] the name
    [k] resolves to the join of the target and [p], after
    [del self.endpoints[k]] it raises [ValueError], and in both cases
    every other name resolves as before. *)
Theorem build_url_follows_mutation
    (self : ScrapydAPI) (w : world) (k p other : string) :
  other <> k ->
  let w_set := (Heap.mutate (endpoints self) (insert k p) w).2 in
  let w_del := (Heap.mutate (endpoints self) (delete k) w).2 in
  _build_url self k w_set = (Ok (Compat.urljoin (target self) p), w_set)
  /\ _build_url self k w_del
     = (Raise (ValueError ("Unknown endpoint `" +:+ k +:+ "`")), w_del)
  /\ (_build_url self other w_set).1 = (_build_url self other w).1
  /\ (_build_url self other w_del).1 = (_build_url self other w).1.
Proof.
  intros Hne w_set w_del. subst w_set w_del. simpl.
  assert (Hset : Heap.read (Heap.write (endpoints self)
                    (<[k:=p]> (Heap.read w (endpoints self))) w)
                   (endpoints self)
                 = <[k:=p]> (Heap.read w (endpoints self)))
    by apply read_write_eq.
  assert (Hdel : Heap.read (Heap.write (endpoints self)
                    (delete k (Heap.read w (endpoints self))) w)
                   (endpoints self)
                 = delete k (Heap.read w (endpoints self)))
    by apply read_write_eq.
  split. { apply build_url_known. rewrite Hset. apply lookup_insert_eq. }
  split. { apply build_url_unknown. rewrite Hdel. apply lookup_delete_eq. }
  split.
  - destruct (Heap.read w (endpoints self) !! other) as [path|] eqn:Ho.
    + rewrite (build_url_known _ w _ _ Ho).
      rewrite (build_url_known _ _ other path); [done|].
      rewrite Hset. by rewrite lookup_insert_ne.
    + rewrite (build_url_unknown _ w _ Ho).
      rewrite (build_url_unknown _ _ other); [done|].
      rewrite Hset. by rewrite lookup_insert_ne.
  - destruct (Heap.read w (endpoints self) !! other) as [path|] eqn:Ho.
    + rewrite (build_url_known _ w _ _ Ho).
      rewrite (build_url_known _ _ other path); [done|].
      rewrite Hdel. by rewrite lookup_delete_ne.
    + rewrite (build_url_unknown _ w _ Ho).
      rewrite (build_url_unknown _ _ other); [done|].
      rewrite Hdel. by rewrite lookup_delete_ne.
Qed.

Lemma build_url_follows_mutation_witness :
  let w_set :=
    (Heap.mutate 2%positive (insert "cancel" "v2/cancel.json") demo_world2).2 in
  let w_del := (Heap.mutate 2%positive (delete "cancel") demo_world2).2 in
  (_build_url (demo_api VNone) "cancel" w_set).1
  = Ok "http://host:6800/v2/cancel.json"
  /\ (_build_url (demo_api VNone) "cancel" w_del).1
     = Raise (ValueError "Unknown endpoint `cancel`")
  /\ (_build_url (demo_api VNone) "schedule" w_del).1
     = Ok "http://host:6800/schedule.json".
Proof.
  intros w_set w_del.
  destruct (build_url_follows_mutation (demo_api VNone) demo_world2
              "cancel" "v2/cancel.json" "schedule")
    as (Hset & Hdel & _ & Hother); [discriminate|].
  split; [exact (f_equal fst Hset)|]. split; [exact (f_equal fst Hdel)|].
  exact Hother.
Defined.

(** ** The fields of the data sent by schedule *)

Section DictKeys.

Implicit Types (d other : pydict) (k : string) (v : pyval).

Lemma keys_dict_set k v d k' :
  k' ∈ keys (dict_set k v d) <-> k' = k \/ k' ∈ keys d.
Proof.
  unfold keys. induction d as [|[k1 v1] d IH]; simpl.
  - rewrite list_elem_of_singleton. split; [by left|].
    intros [H|H]; [done | by apply elem_of_nil in H].
  - destruct (decide (k1 = k)) as [->|Hne]; simpl.
    + rewrite !elem_of_cons. tauto.
    + rewrite !elem_of_cons, IH. tauto.
Qed.

Lemma NoDup_dict_set k v d : NoDup (keys d) -> NoDup (keys (dict_set k v d)).
Proof.
  unfold keys. induction d as [|[k1 v1] d IH]; simpl; intros Hnd.
  - apply NoDup_singleton.
  - apply NoDup_cons in Hnd as [Hk1 Hnd].
    destruct (decide (k1 = k)) as [->|Hne]; simpl.
    + by apply NoDup_cons.
    + apply NoDup_cons. split; [|by apply IH].
      intros Hin. apply (keys_dict_set k v d k1) in Hin as [Heq|Hin]; done.
Qed.

Lemma keys_dict_update d other k :
  k ∈ keys (dict_update d other) <-> k ∈ keys d \/ k ∈ keys other.
Proof.
  revert d. induction other as [|[k1 v1] other IH]; intros d.
  - unfold keys at 3. simpl. split; [by left|].
    intros [H|H]; [done | by apply elem_of_nil in H].
  - change (dict_update d ((k1, v1) :: other))
      with (dict_update (dict_set k1 v1 d) other).
    rewrite IH, keys_dict_set. unfold keys at 4. simpl.
    rewrite elem_of_cons. tauto.
Qed.

Lemma NoDup_dict_update d other :
  NoDup (keys d) -> NoDup (keys (dict_update d other)).
Proof.
  revert d. induction other as [|[k1 v1] other IH]; intros d Hnd; [done|].
  change (dict_update d ((k1, v1) :: other))
    with (dict_update (dict_set k1 v1 d) other).
  apply IH. by apply NoDup_dict_set.
Qed.

End DictKeys.

(** X7. Whatever the arguments, the data [schedule] builds are a
    dictionary in which no key occurs twice, and its keys are [project],
    [spider], the keys of the extras and, exactly when the settings are
    truthy, [setting]: no other field is ever sent. *)
Theorem schedule_data_fields
    (repr : pyval -> string) (project spider settings : pyval)
    (kwargs data : pydict) (k : string) :
  schedule_data repr project spider settings kwargs = Ok data ->
  NoDup (keys data)
  /\ (k ∈ keys data <->
      k = "project" \/ k = "spider" \/ k ∈ keys kwargs
      \/ (k = "setting" /\ truthy settings = true)).
Proof.
  intros Hdata. unfold schedule_data in Hdata.
  set (base := [("project", project); ("spider", spider)]) in *.
  assert (Hbase : NoDup (keys base)) by compute_done.
  assert (Hkeys : forall k', k' ∈ keys base <-> k' = "project" \/ k' = "spider").
  { intros k'. unfold keys, base. simpl.
    rewrite elem_of_cons, list_elem_of_singleton. tauto. }
  destruct (truthy settings).
  - destruct (iteritems settings) as [items|]; [|discriminate].
    inversion Hdata; subst data. split.
    + by apply NoDup_dict_set, NoDup_dict_update.
    + rewrite keys_dict_set, keys_dict_update, Hkeys. tauto.
  - inversion Hdata; subst data. split.
    + by apply NoDup_dict_update.
    + rewrite keys_dict_update, Hkeys. split; [tauto|].
      intros [H|[H|[H|[_ H]]]]; try tauto. discriminate.
Qed.

Lemma schedule_data_fields_witness :
  let data :=
    [("project", VStr "myproject"); ("spider", VStr "myspider");
     ("priority", VInt 5); ("setting", VList [VStr "DOWNLOAD_DELAY=2"])] in
  schedule_data demo_repr (VStr "myproject") (VStr "myspider")
    (VDict [("DOWNLOAD_DELAY", VInt 2)])
    [("priority", VInt 5); ("setting", VStr "X=1")] = Ok data
  /\ NoDup (keys data)
  /\ ("jobid" ∈ keys data <->
      "jobid" = "project" \/ "jobid" = "spider"
      \/ "jobid" ∈ keys [("priority", VInt 5); ("setting", VStr "X=1")]
      \/ ("jobid" = "setting"
          /\ truthy (VDict [("DOWNLOAD_DELAY", VInt 2)]) = true)).
Proof.
  intros data. split; [reflexivity|].
  apply (schedule_data_fields demo_repr (VStr "myproject") (VStr "myspider")
           (VDict [("DOWNLOAD_DELAY", VInt 2)])
           [("priority", VInt 5); ("setting", VStr "X=1")] data "jobid").
  reflexivity.
Defined.

(** ** Passing the arguments of schedule by position or by keyword *)

Lemma filter_none {A} (P : A -> Prop) `{forall x, Decision (P x)} (l : list A) :
  (forall x, x ∈ l -> ~ P x) -> filter P l = [].
Proof.
  induction l as [|x l IH]; intros Hl; [done|].
  rewrite filter_cons_False by (apply Hl, list_elem_of_here).
  apply IH. intros y Hy. apply Hl. by apply elem_of_cons; right.
Qed.

Lemma filter_all {A} (P : A -> Prop) `{forall x, Decision (P x)} (l : list A) :
  (forall x, x ∈ l -> P x) -> filter P l = l.
Proof.
  induction l as [|x l IH]; intros Hl; [done|].
  rewrite filter_cons_True by (apply Hl, list_elem_of_here).
  f_equal. apply IH. intros y Hy. apply Hl. by apply elem_of_cons; right.
Qed.

(** Keywords that name neither [self] nor a parameter clash with nothing
    and all reach [kwargs]. *)
Lemma free_keywords (npos : nat) (kw : pydict) :
  (forall k, k ∈ keys kw -> k ∉ "self" :: schedule_params) ->
  clash npos kw = None
  /\ filter (fun kv => kv.1 ∉ schedule_params) kw = kw
  /\ forall name, name ∈ schedule_params -> dict_get kw name = None.
Proof.
  intros Hfree. split; [|split].
  - unfold clash. rewrite filter_none; [done|].
    intros k Hk Hin. apply (Hfree k Hk).
    apply elem_of_cons in Hin as [->|Hin]; [apply list_elem_of_here|].
    apply elem_of_cons. right. by apply (subseteq_take npos).
  - apply filter_all. intros [k v] Hin Hp. simpl in Hp.
    apply (Hfree k).
    + unfold keys. by apply (list_elem_of_fmap_2' fst _ (k, v)).
    + by apply elem_of_cons; right.
  - intros name Hname. apply dict_get_None_notin. intros Hin.
    apply (Hfree name Hin). by apply elem_of_cons; right.
Qed.

(** X8. [project], [spider] and [settings] may be passed to [schedule]
    by position or by keyword with the same effect, and leaving
    [settings] out is the same as passing [None]; the remaining
    keywords are the extras. *)
Theorem schedule_call_position_or_keyword
    (constants : Constants) (repr : pyval -> string) (self : ScrapydAPI)
    (project spider settings : pyval) (kw : pydict) (w : world) :
  (forall k, k ∈ keys kw -> k ∉ "self" :: schedule_params) ->
  let body (st : pyval) :=
    schedule constants repr self project spider st kw w in
  schedule_call constants repr self [project; spider; settings] kw w
  = body settings
  /\ schedule_call constants repr self [project; spider]
       (("settings", settings) :: kw) w = body settings
  /\ schedule_call constants repr self []
       (("project", project) :: ("spider", spider)
        :: ("settings", settings) :: kw) w = body settings
  /\ schedule_call constants repr self [project; spider] kw w = body VNone
  /\ schedule_call constants repr self []
       (("spider", spider) :: ("project", project) :: kw) w = body VNone.
Proof.
  intros Hfree body. subst body.
  assert (Hsplit : forall npos (front : pydict),
    (forall k, k ∈ keys front -> k ∈ schedule_params) ->
    (forall k, k ∈ keys front -> k ∉ "self" :: take npos schedule_params) ->
    clash npos (front ++ kw)%list = None
    /\ filter (fun kv => kv.1 ∉ schedule_params) (front ++ kw)%list = kw).
  { intros npos front Hin Hnot.
    destruct (free_keywords npos kw Hfree) as (Hclash & Hfilter & _).
    split.
    - unfold clash in *. unfold keys in *. rewrite fmap_app, filter_app.
      rewrite (filter_none _ (front.*1)) by (intros k Hk; by apply Hnot).
      exact Hclash.
    - rewrite filter_app, Hfilter.
      rewrite (filter_none _ front); [done|].
      intros [k v] Hk Hp. simpl in Hp. apply Hp, Hin.
      unfold keys. by apply (list_elem_of_fmap_2' fst _ (k, v)). }
  destruct (free_keywords 0 kw Hfree) as (_ & _ & Hnone).
  assert (Hsettings : dict_get kw "settings" = None)
    by (apply Hnone; compute_done).
  unfold schedule_call, bind_schedule. run.
  repeat split.
  - destruct (Hsplit 3%nat []) as [Hc Hf];
      [intros k Hk; by apply elem_of_nil in Hk
      |intros k Hk; by apply elem_of_nil in Hk|].
    simpl in Hc, Hf. by rewrite Hc, Hf.
  - destruct (Hsplit 2%nat [("settings", settings)]) as [Hc Hf].
    + intros k Hk. apply list_elem_of_singleton in Hk as ->. compute_done.
    + intros k Hk. apply list_elem_of_singleton in Hk as ->. compute_done.
    + simpl in Hc, Hf. by rewrite Hc, Hf.
  - destruct (Hsplit 0%nat [("project", project); ("spider", spider);
                            ("settings", settings)]) as [Hc Hf].
    + intros k Hk. unfold keys in Hk. simpl in Hk.
      rewrite !elem_of_cons in Hk.
      destruct Hk as [->|[->|[->|Hk]]]; try compute_done.
      by apply elem_of_nil in Hk.
    + intros k Hk. unfold keys in Hk. simpl in Hk.
      rewrite !elem_of_cons in Hk.
      destruct Hk as [->|[->|[->|Hk]]]; try compute_done.
      by apply elem_of_nil in Hk.
    + simpl in Hc, Hf. by rewrite Hc, Hf.
  - destruct (Hsplit 2%nat []) as [Hc Hf];
      [intros k Hk; by apply elem_of_nil in Hk
      |intros k Hk; by apply elem_of_nil in Hk|].
    simpl in Hc, Hf. rewrite Hc, Hf. unfold bind_param. simpl.
    by rewrite Hsettings.
  - destruct (Hsplit 0%nat [("spider", spider); ("project", project)])
      as [Hc Hf].
    + intros k Hk. unfold keys in Hk. simpl in Hk.
      rewrite !elem_of_cons in Hk.
      destruct Hk as [->|[->|Hk]]; try compute_done.
      by apply elem_of_nil in Hk.
    + intros k Hk. unfold keys in Hk. simpl in Hk.
      rewrite !elem_of_cons in Hk.
      destruct Hk as [->|[->|Hk]]; try compute_done.
      by apply elem_of_nil in Hk.
    + simpl in Hc, Hf. rewrite Hc, Hf. unfold bind_param. simpl.
      by rewrite Hsettings.
Qed.

Lemma schedule_call_position_or_keyword_witness :
  let api := demo_api (VDict [("jobid", VStr "j1")]) in
  let settings := VDict [("DOWNLOAD_DELAY", VStr "2")] in
  schedule_call demo_constants demo_repr api
    [VStr "myproject"; VStr "myspider"]
    [("settings", settings); ("priority", VInt 5)] demo_world2
  = schedule demo_constants demo_repr api (VStr "myproject") (VStr "myspider")
      settings [("priority", VInt 5)] demo_world2.
Proof.
  intros api settings.
  destruct (schedule_call_position_or_keyword demo_constants demo_repr api
              (VStr "myproject") (VStr "myspider") settings
              [("priority", VInt 5)] demo_world2) as (_ & Hkw & _).
  - intros k Hk. unfold keys in Hk. simpl in Hk.
    apply list_elem_of_singleton in Hk as ->. compute_done.
  - exact Hkw.
Defined.

(** ** The setting strings *)

Lemma append_nil (b : string) : "" +:+ b = b.
Proof. reflexivity. Qed.

Lemma append_cons (x : ascii) (a b : string) :
  String x a +:+ b = String x (a +:+ b).
Proof. reflexivity. Qed.

Lemma append_assoc (a b c : string) : (a +:+ b) +:+ c = a +:+ b +:+ c.
Proof.
  induction a as [|x a IH]; [done|].
  rewrite !append_cons. by f_equal.
Qed.

(** X9. Nothing is escaped in a setting string, so the string does not
    tell where the name ends: a setting named [a=b] with the value [c]
    and a setting named [a] with the value [b=c] make [schedule] build
    the same data. *)
Theorem setting_strings_are_ambiguous
    (repr : pyval -> string) (project spider : pyval) (kwargs : pydict)
    (a b c : string) :
  schedule_data repr project spider (VDict [(a +:+ "=" +:+ b, VStr c)]) kwargs
  = schedule_data repr project spider (VDict [(a, VStr (b +:+ "=" +:+ c))])
      kwargs.
Proof.
  unfold schedule_data, setting_params. simpl.
  by rewrite (append_assoc a ("=" +:+ b) ("=" +:+ c)).
Qed.

(** A name without an equals sign can be read back from a setting
    string, and the value with it. *)
Lemma setting_string_inj (n1 n2 v1 v2 : string) :
  Compat.all_chars (fun x => negb (Ascii.eqb x "=")) n1 = true ->
  Compat.all_chars (fun x => negb (Ascii.eqb x "=")) n2 = true ->
  n1 +:+ "=" +:+ v1 = n2 +:+ "=" +:+ v2 ->
  n1 = n2 /\ v1 = v2.
Proof.
  revert n2. induction n1 as [|x n1 IH]; intros [|y n2]; simpl;
    intros H1 H2 Heq; rewrite ?append_nil, ?append_cons in Heq.
  - by inversion Heq.
  - inversion Heq; subst y. simpl in H2. discriminate.
  - inversion Heq; subst x. simpl in H1. discriminate.
  - apply andb_prop in H1 as [_ H1]. apply andb_prop in H2 as [_ H2].
    inversion Heq; subst y.
    destruct (IH n2 H1 H2) as [-> ->]; done.
Qed.

(** X10. When no name contains an equals sign and every value is a
    string, the setting strings determine the settings: two such
    dictionaries that give the same strings have the same items in the
    same order. *)
Theorem setting_strings_determine_settings
    (repr : pyval -> string) (items1 items2 : pydict) :
  Forall (fun kv => Compat.all_chars (fun x => negb (Ascii.eqb x "=")) kv.1
                    = true /\ exists s, kv.2 = VStr s) items1 ->
  Forall (fun kv => Compat.all_chars (fun x => negb (Ascii.eqb x "=")) kv.1
                    = true /\ exists s, kv.2 = VStr s) items2 ->
  setting_params repr items1 = setting_params repr items2 ->
  items1 = items2.
Proof.
  intros H1. revert items2.
  induction H1 as [|[n1 v1] items1 [Hn1 [s1 Hv1]] _ IH];
    intros items2 H2 Heq.
  - destruct items2; [done | discriminate].
  - destruct H2 as [|[n2 v2] items2 [Hn2 [s2 Hv2]] H2]; [discriminate|].
    simpl in *. subst v1 v2. unfold setting_params in Heq. simpl in Heq.
    inversion Heq as [[Hstr Hrest]].
    destruct (setting_string_inj _ _ _ _ Hn1 Hn2 Hstr) as [-> ->].
    f_equal. by apply IH.
Qed.

Lemma setting_strings_determine_settings_witness :
  [("DOWNLOAD_DELAY", VStr "2"); ("USER_AGENT", VStr "a=b")]
  = [("DOWNLOAD_DELAY", VStr "2"); ("USER_AGENT", VStr "a=b")].
Proof.
  apply (setting_strings_determine_settings demo_repr
           [("DOWNLOAD_DELAY", VStr "2"); ("USER_AGENT", VStr "a=b")]
           [("DOWNLOAD_DELAY", VStr "2"); ("USER_AGENT", VStr "a=b")]).
  - repeat constructor; by eexists.
  - repeat constructor; by eexists.
  - reflexivity.
Defined.

(** * URL resolution on ordinary targets *)

(** ** Strings *)

Section StringFacts.

Implicit Types (s a b : string) (p q stop : ascii -> bool).


Lemma nonempty_app_l a b : Compat.nonempty a = true -> Compat.nonempty (a +:+ b) = true.
Proof. by destruct a. Qed.













End StringFacts.

Abbreviation no_slash s :=
  (Compat.all_chars (fun c => negb (Ascii.eqb c "/")) s = true).
Abbreviation step := Compat.resolve_step.

Section SegmentFacts.








End SegmentFacts.


Section UrlFacts.

Import UrlShape.




































End UrlFacts.

(** ** Resolving a known endpoint *)


